(** * Sticky-note manager: the note catalogue and its live windows

    A shallow embedding of [main.py] (classes [StickyNote] and
    [StickyNoteApp]) and of [views/components/preview_panel.py].

    What is modelled: the list [all_notes] of note dictionaries, the list
    [notes] of window objects, the JSON file, the tree view rows, the tree
    selection, the search variable and the preview text widget.

    What is left to the toolkit: fonts, styles, menus, message boxes and the
    status bar.  The fields [winfo_x], [winfo_y], [winfo_width] and
    [winfo_height] of a window hold the geometry last requested with
    [geometry(...)], which is what Tk reports for a window that is shown.
    Before a window is first shown Tk reports 1x1 at 0,0; what
    [get_note_data] reads in the very call that builds a window is, here,
    the geometry the window has once shown.  The statements on the least
    size of a note are made on windows the user has resized and on notes
    loaded without a window, where the two agree.

    Strings are sequences of bytes; [strip] and [isdigit] act on the ASCII
    range.  [str.lower()] is a parameter of the loop of [filter_notes]
    ([tree_rows_with]); the application is run with the lower case of the
    ASCII range.  A write of the JSON file is taken to succeed. *)

From Stdlib Require Import String Ascii List ZArith Bool Arith Lia.
Import ListNotations.
Local Open Scope string_scope.

(* ------------------------------------------------------------------ *)
(** ** Python string operations used by the program *)

Module Py.

(** [c.lower()] on one character of the ASCII range. *)
Definition lower_ascii (c : ascii) : ascii :=
  let n := nat_of_ascii c in
  if (65 <=? n)%nat && (n <=? 90)%nat then ascii_of_nat (n + 32) else c.

(** [s.lower()] on text of the ASCII range, where it works character by
    character.  Python's [str.lower()] also folds letters outside that
    range, some of them by their context; the loop of [filter_notes] is
    therefore written for any case-folding function ([tree_rows_with]), and
    this one is what the application is run with. *)
Fixpoint lower (s : string) : string :=
  match s with
  | EmptyString => EmptyString
  | String c s' => String (lower_ascii c) (lower s')
  end.

(** [needle in hay]: substring test. *)
Fixpoint contains (needle hay : string) : bool :=
  String.prefix needle hay ||
  match hay with
  | EmptyString => false
  | String _ hay' => contains needle hay'
  end.

(** White space removed by [str.strip()]: tab, line feed, vertical tab,
    form feed, carriage return, the separators 28..31 and the space. *)
Definition is_space (c : ascii) : bool :=
  let n := nat_of_ascii c in
  ((9 <=? n)%nat && (n <=? 13)%nat) ||
  ((28 <=? n)%nat && (n <=? 32)%nat).

Fixpoint lstrip (s : string) : string :=
  match s with
  | EmptyString => EmptyString
  | String c s' => if is_space c then lstrip s' else s
  end.

Fixpoint rstrip (s : string) : string :=
  match s with
  | EmptyString => EmptyString
  | String c s' =>
      match rstrip s' with
      | EmptyString => if is_space c then EmptyString else String c EmptyString
      | r => String c r
      end
  end.

(** [s.strip()]. *)
Definition strip (s : string) : string := rstrip (lstrip s).

(** [s.replace(old, " ")] for a one-character [old]. *)
Fixpoint replace_char (old : ascii) (s : string) : string :=
  match s with
  | EmptyString => EmptyString
  | String c s' =>
      String (if Ascii.eqb c old then " "%char else c) (replace_char old s')
  end.

Definition is_digit (c : ascii) : bool :=
  let n := nat_of_ascii c in (48 <=? n)%nat && (n <=? 57)%nat.

Fixpoint all_digits (s : string) : bool :=
  match s with
  | EmptyString => true
  | String c s' => is_digit c && all_digits s'
  end.

(** [s.isdigit()]: false on the empty string. *)
Definition isdigit (s : string) : bool :=
  match s with
  | EmptyString => false
  | _ => all_digits s
  end.

(** Truth value of a string: empty is false. *)
Definition truthy (s : string) : bool :=
  match s with
  | EmptyString => false
  | _ => true
  end.

Definition LF : ascii := ascii_of_nat 10.
Definition CR : ascii := ascii_of_nat 13.

End Py.

(* ------------------------------------------------------------------ *)
(** ** Note dictionaries

    A note is a Python [dict].  The program reads ["id"] with
    [note["id"]], so the key is always there; every other key is read with
    [.get(key, default)] or tested with [in], so it may be absent, as it is
    in a file written by hand or by an older version. *)

Module NoteData.

Record t : Type := mk {
  id : string;
  text : option string;
  x : option Z;
  y : option Z;
  width : option Z;
  height : option Z;
  color : option string;
  is_open : option bool;
  was_open : option bool
}.

(** [note.get("text", "")] *)
Definition get_text (n : t) : string :=
  match text n with Some s => s | None => "" end.

(** [note.get("color", "#FFFF99")] *)
Definition get_color (n : t) : string :=
  match color n with Some c => c | None => "#FFFF99" end.

(** [note.get("is_open", False)] *)
Definition get_is_open (n : t) : bool :=
  match is_open n with Some b => b | None => false end.

(** [note.get("was_open", False)] *)
Definition get_was_open (n : t) : bool :=
  match was_open n with Some b => b | None => false end.

(** [note["is_open"] = b] *)
Definition set_is_open (b : bool) (n : t) : t :=
  mk (id n) (text n) (x n) (y n) (width n) (height n) (color n)
     (Some b) (was_open n).

(** [note["was_open"] = b] *)
Definition set_was_open (b : bool) (n : t) : t :=
  mk (id n) (text n) (x n) (y n) (width n) (height n) (color n)
     (is_open n) (Some b).

(** [note["color"] = c] *)
Definition set_color (c : string) (n : t) : t :=
  mk (id n) (text n) (x n) (y n) (width n) (height n) (Some c)
     (is_open n) (was_open n).

End NoteData.

(* ------------------------------------------------------------------ *)
(** ** What the surroundings supply when a window is built *)

Record Env : Type := mkEnv {
  now : string;      (* datetime.now().strftime("%Y%m%d%H%M%S") *)
  random_x : Z;      (* random.randint(50, screen_width - 250) *)
  random_y : Z       (* random.randint(50, screen_height - 250) *)
}.

(* ------------------------------------------------------------------ *)
(** ** Note windows: class [StickyNote] *)

Module StickyNote.

Record t : Type := mk {
  note_id : string;
  text_area : string;        (* what the user typed in the text widget *)
  winfo_x : Z;
  winfo_y : Z;
  winfo_width : Z;
  winfo_height : Z;
  bg : string;
  resize_start_x : Z;
  resize_start_y : Z;
  resize_start_width : Z;
  resize_start_height : Z;
  drag_start_x : Z;
  drag_start_y : Z;
  winfo_exists : bool        (* false once [destroy()] has run *)
}.

(** [geometry(f"{w}x{h}")] *)
Definition geometry_size (w h : Z) (s : t) : t :=
  mk (note_id s) (text_area s) (winfo_x s) (winfo_y s) w h (bg s)
     (resize_start_x s) (resize_start_y s)
     (resize_start_width s) (resize_start_height s)
     (drag_start_x s) (drag_start_y s) (winfo_exists s).

(** [geometry(f"+{x}+{y}")] *)
Definition geometry_pos (px py : Z) (s : t) : t :=
  mk (note_id s) (text_area s) px py (winfo_width s) (winfo_height s) (bg s)
     (resize_start_x s) (resize_start_y s)
     (resize_start_width s) (resize_start_height s)
     (drag_start_x s) (drag_start_y s) (winfo_exists s).

(** The text widget's content replaced by what the user typed. *)
Definition set_text (txt : string) (s : t) : t :=
  mk (note_id s) txt (winfo_x s) (winfo_y s) (winfo_width s)
     (winfo_height s) (bg s)
     (resize_start_x s) (resize_start_y s)
     (resize_start_width s) (resize_start_height s)
     (drag_start_x s) (drag_start_y s) (winfo_exists s).

(** [config(bg=color)] on the window and all its parts. *)
Definition config_bg (c : string) (s : t) : t :=
  mk (note_id s) (text_area s) (winfo_x s) (winfo_y s) (winfo_width s)
     (winfo_height s) c
     (resize_start_x s) (resize_start_y s)
     (resize_start_width s) (resize_start_height s)
     (drag_start_x s) (drag_start_y s) (winfo_exists s).

(** [destroy()] *)
Definition destroy (s : t) : t :=
  mk (note_id s) (text_area s) (winfo_x s) (winfo_y s) (winfo_width s)
     (winfo_height s) (bg s)
     (resize_start_x s) (resize_start_y s)
     (resize_start_width s) (resize_start_height s)
     (drag_start_x s) (drag_start_y s) false.

(** [__init__]: the id is [note_id or now], the size 200x200, the place
    the given one when both coordinates are given and a random one
    otherwise.  The geometry fields are what [geometry("200x200")] and
    [geometry(f"+{x}+{y}")] request. *)
Definition init (nid : option string) (txt : string) (px py : option Z)
    (c : string) (e : Env) : t :=
  let the_id :=
    match nid with
    | Some s => if Py.truthy s then s else now e
    | None => now e
    end in
  let '(wx, wy) :=
    match px, py with
    | Some a, Some b => (a, b)
    | _, _ => (random_x e, random_y e)
    end in
  mk the_id txt wx wy 200 200 c 0 0 0 0 0 0 true.

(** [start_resize(event)] with the pointer at [(x_root, y_root)]. *)
Definition start_resize (x_root y_root : Z) (s : t) : t :=
  mk (note_id s) (text_area s) (winfo_x s) (winfo_y s) (winfo_width s)
     (winfo_height s) (bg s)
     x_root y_root (winfo_width s) (winfo_height s)
     (drag_start_x s) (drag_start_y s) (winfo_exists s).

(** [on_resize(event)]: never below 100 in either direction. *)
Definition on_resize (x_root y_root : Z) (s : t) : t :=
  let new_width :=
    Z.max 100 (resize_start_width s + (x_root - resize_start_x s)) in
  let new_height :=
    Z.max 100 (resize_start_height s + (y_root - resize_start_y s)) in
  geometry_size new_width new_height s.

(** [start_drag(event)] *)
Definition start_drag (ex ey : Z) (s : t) : t :=
  mk (note_id s) (text_area s) (winfo_x s) (winfo_y s) (winfo_width s)
     (winfo_height s) (bg s)
     (resize_start_x s) (resize_start_y s)
     (resize_start_width s) (resize_start_height s)
     ex ey (winfo_exists s).

(** [on_drag(event)] *)
Definition on_drag (ex ey : Z) (s : t) : t :=
  geometry_pos (winfo_x s + (ex - drag_start_x s))
               (winfo_y s + (ey - drag_start_y s)) s.

(** [get_note_data()]: the text widget returns its content followed by a
    line feed, which [strip()] removes with all other outer white space;
    both flags are always [True]. *)
Definition get_note_data (s : t) : NoteData.t :=
  NoteData.mk (note_id s)
    (Some (Py.strip (text_area s ++ String Py.LF EmptyString)))
    (Some (winfo_x s)) (Some (winfo_y s))
    (Some (winfo_width s)) (Some (winfo_height s))
    (Some (bg s)) (Some true) (Some true).

End StickyNote.

(* ------------------------------------------------------------------ *)
(** ** Rows of the tree view *)

(** The date column: the raw id, or the date [strptime] read from it, which
    the program prints with ["%Y/%m/%d %H:%M"]. *)
Inductive DateDisplay : Type :=
| RawId (s : string)
| Formatted (year month day hour minute : nat).

(** The preview column: the placeholder for an empty text, or the text on
    one line. *)
Inductive PreviewCell : Type :=
| NoContent
| PreviewText (s : string).

(** The status column: its two literals. *)
Inductive Status : Type :=
| StatusOpen
| StatusClosed.

Record Row : Type := mkRow {
  row_id : string;
  row_date : DateDisplay;
  row_preview : PreviewCell;
  row_status : Status
}.

Module DateTime.

Fixpoint number_acc (acc : nat) (s : string) : nat :=
  match s with
  | EmptyString => acc
  | String c s' => number_acc (acc * 10 + (nat_of_ascii c - 48)) s'
  end.

Definition number (s : string) : nat := number_acc 0 s.

Definition is_leap (yr : nat) : bool :=
  (yr mod 4 =? 0)%nat &&
  (negb (yr mod 100 =? 0)%nat || (yr mod 400 =? 0)%nat).

Definition days_in_month (yr m : nat) : nat :=
  match m with
  | 1 | 3 | 5 | 7 | 8 | 10 | 12 => 31
  | 4 | 6 | 9 | 11 => 30
  | 2 => if is_leap yr then 29 else 28
  | _ => 0
  end.

(** [datetime.strptime(s, "%Y%m%d%H%M%S")] on fourteen digits; [None]
    stands for the [ValueError] the program catches. *)
Definition strptime (s : string) : option (nat * nat * nat * nat * nat) :=
  let yr := number (substring 0 4 s) in
  let mo := number (substring 4 2 s) in
  let dy := number (substring 6 2 s) in
  let hr := number (substring 8 2 s) in
  let mi := number (substring 10 2 s) in
  let se := number (substring 12 2 s) in
  if ((1 <=? yr) && (1 <=? mo) && (mo <=? 12) &&
      (1 <=? dy) && (dy <=? days_in_month yr mo) &&
      (hr <=? 23) && (mi <=? 59) && (se <=? 59))%nat
  then Some (yr, mo, dy, hr, mi)
  else None.

End DateTime.

(** The date shown for an id (the first half of the loop body of
    [filter_notes]). *)
Definition date_display (date_str : string) : DateDisplay :=
  if (String.length date_str =? 14)%nat && Py.isdigit date_str then
    match DateTime.strptime date_str with
    | Some (yr, mo, dy, hr, mi) => Formatted yr mo dy hr mi
    | None => RawId date_str
    end
  else RawId date_str.

(** The one-line preview (the second half of the loop body). *)
Definition preview_cell (n : NoteData.t) : PreviewCell :=
  let text := Py.strip (NoteData.get_text n) in
  let text := Py.replace_char Py.CR (Py.replace_char Py.LF text) in
  let preview :=
    if (80 <? String.length text)%nat
    then substring 0 80 text ++ "..."
    else text in
  if Py.truthy preview then PreviewText preview else NoContent.

Definition status_of (n : NoteData.t) : Status :=
  if NoteData.get_is_open n then StatusOpen else StatusClosed.

Definition make_row (n : NoteData.t) : Row :=
  mkRow (NoteData.id n) (date_display (NoteData.id n)) (preview_cell n)
        (status_of n).

(** The test of [filter_notes], [search_text] being already lower case.
    [lower] stands for [str.lower()]: the loop is written once, for any
    such function. *)
Definition note_matches_with (lower : string -> string)
    (search_text : string) (n : NoteData.t) : bool :=
  Py.contains search_text (lower (NoteData.id n)) ||
  Py.contains search_text (lower (NoteData.get_text n)).

(** The rows [filter_notes] inserts, one [tree.insert("", "end", ...)] per
    matching note, in the order of the loop over [all_notes]. *)
Fixpoint tree_rows_with (lower : string -> string) (search_text : string)
    (all : list NoteData.t) : list Row :=
  match all with
  | [] => []
  | n :: rest =>
      if note_matches_with lower search_text n
      then make_row n :: tree_rows_with lower search_text rest
      else tree_rows_with lower search_text rest
  end.

(** [filter_notes] from the search variable on:
    [search_text = self.search_var.get().lower()], then the loop. *)
Definition view_rows (lower : string -> string) (search : string)
    (all : list NoteData.t) : list Row :=
  tree_rows_with lower (lower search) all.

(** The application is run with [Py.lower]. *)
Definition note_matches : string -> NoteData.t -> bool :=
  note_matches_with Py.lower.

Definition tree_rows : string -> list NoteData.t -> list Row :=
  tree_rows_with Py.lower.

(* ------------------------------------------------------------------ *)
(** ** The application: class [StickyNoteApp] *)

(** The JSON file: absent, unreadable, or a list of notes. *)
Inductive FileContent : Type :=
| Missing
| Corrupt
| Notes (l : list NoteData.t).

(** The preview text widget: its text and its background ([None] before any
    [config(bg=...)]). *)
Record Preview : Type := mkPreview {
  preview_content : string;
  preview_bg : option string
}.

Record App : Type := mkApp {
  notes : list StickyNote.t;        (* self.notes *)
  all_notes : list NoteData.t;      (* self.all_notes *)
  notes_file : FileContent;         (* the file sticky_notes.json *)
  search_var : string;              (* self.search_var *)
  tree : list Row;                  (* the rows of self.tree *)
  selection : option string;        (* values[0] of the selected row *)
  preview_text : Preview            (* self.preview_text *)
}.

Definition set_notes (l : list StickyNote.t) (a : App) : App :=
  mkApp l (all_notes a) (notes_file a) (search_var a) (tree a)
        (selection a) (preview_text a).

Definition set_all_notes (l : list NoteData.t) (a : App) : App :=
  mkApp (notes a) l (notes_file a) (search_var a) (tree a)
        (selection a) (preview_text a).

Definition set_notes_file (f : FileContent) (a : App) : App :=
  mkApp (notes a) (all_notes a) f (search_var a) (tree a)
        (selection a) (preview_text a).

Definition set_search_var (s : string) (a : App) : App :=
  mkApp (notes a) (all_notes a) (notes_file a) s (tree a)
        (selection a) (preview_text a).

Definition set_tree (rows : list Row) (sel : option string) (a : App) : App :=
  mkApp (notes a) (all_notes a) (notes_file a) (search_var a) rows
        sel (preview_text a).

Definition set_preview_text (p : Preview) (a : App) : App :=
  mkApp (notes a) (all_notes a) (notes_file a) (search_var a) (tree a)
        (selection a) p.

(** *** Loops over [all_notes] that stop at the first note with an id *)

Definition has_id (k : string) (n : NoteData.t) : bool :=
  String.eqb (NoteData.id n) k.

(** [for note in all_notes: if note["id"] == k: note_data = note; break] *)
Definition find_note (k : string) (all : list NoteData.t)
    : option NoteData.t :=
  find (has_id k) all.

(** [for i, note in enumerate(all_notes): if note["id"] == k:
    all_notes[i] = f(note); break] *)
Fixpoint update_first (k : string) (f : NoteData.t -> NoteData.t)
    (all : list NoteData.t) : list NoteData.t :=
  match all with
  | [] => []
  | n :: rest =>
      if has_id k n then f n :: rest else n :: update_first k f rest
  end.

(** [... all_notes[i] = d; break] *)
Definition replace_first (k : string) (d : NoteData.t)
    (all : list NoteData.t) : list NoteData.t :=
  update_first k (fun _ => d) all.

(** [... del all_notes[i]; break] *)
Fixpoint remove_first (k : string) (all : list NoteData.t)
    : list NoteData.t :=
  match all with
  | [] => []
  | n :: rest => if has_id k n then rest else n :: remove_first k rest
  end.

(** [note.winfo_exists() and note.note_id == k] *)
Definition live_with_id (k : string) (w : StickyNote.t) : bool :=
  StickyNote.winfo_exists w && String.eqb (StickyNote.note_id w) k.

Fixpoint update_nth {A : Type} (i : nat) (f : A -> A) (l : list A) : list A :=
  match l, i with
  | [], _ => []
  | a :: r, O => f a :: r
  | a :: r, S j => a :: update_nth j f r
  end.

(** *** [filter_notes]: the tree is emptied, which drops the selection, and
    filled again from [all_notes]. *)
Definition filter_notes (a : App) : App :=
  set_tree (tree_rows (Py.lower (search_var a)) (all_notes a)) None a.

(** *** [refresh_note_list] *)

(** Body of the first loop for one window. *)
Definition pull_window (all : list NoteData.t) (w : StickyNote.t)
    : list NoteData.t :=
  if StickyNote.winfo_exists w
  then replace_first (StickyNote.note_id w) (StickyNote.get_note_data w) all
  else all.

(** The set [open_note_ids] the first loop collects. *)
Definition open_note_ids (ws : list StickyNote.t) : list string :=
  map StickyNote.note_id (filter StickyNote.winfo_exists ws).

Definition mem_id (k : string) (ids : list string) : bool :=
  existsb (String.eqb k) ids.

(** The second loop. *)
Definition mark_closed (ids : list string) (all : list NoteData.t)
    : list NoteData.t :=
  map (fun n => if mem_id (NoteData.id n) ids then n
                else NoteData.set_is_open false n) all.

Definition reconcile (ws : list StickyNote.t) (all : list NoteData.t)
    : list NoteData.t :=
  mark_closed (open_note_ids ws) (fold_left pull_window ws all).

Definition refresh_note_list (a : App) : App :=
  filter_notes (set_all_notes (reconcile (notes a) (all_notes a)) a).

(** *** [save_notes] *)
Definition save_notes (a : App) : App :=
  let a1 := refresh_note_list a in
  set_notes_file (Notes (all_notes a1)) a1.

(** *** [update_preview] *)
Definition update_preview (a : App) : App :=
  match selection a with
  | Some note_id =>
      match find_note note_id (all_notes a) with
      | Some note_data =>
          set_preview_text
            (mkPreview (NoteData.get_text note_data)
                       (Some (NoteData.get_color note_data))) a
      | None => a
      end
  | None => set_preview_text (mkPreview "" (Some "white")) a
  end.

(** *** [update_note_in_list] *)
Definition update_note_in_list (note_id : string) (a : App) : App :=
  match find (live_with_id note_id) (notes a) with
  | None => a
  | Some note =>
      let updated_data := StickyNote.get_note_data note in
      let a1 :=
        set_all_notes (replace_first note_id updated_data (all_notes a)) a in
      update_preview (refresh_note_list a1)
  end.

(** *** [update_closed_note] *)
Definition update_closed_note (note_data : NoteData.t) (a : App) : App :=
  let note_id := NoteData.id note_data in
  refresh_note_list
    (set_all_notes (replace_first note_id note_data (all_notes a)) a).

(** *** [create_new_note] *)

(** The window built for a given dictionary: the constructor call, then the
    saved size when both ["width"] and ["height"] are present. *)
Definition window_for (note_data : NoteData.t) (e : Env) : StickyNote.t :=
  let note :=
    StickyNote.init (Some (NoteData.id note_data))
      (NoteData.get_text note_data)
      (NoteData.x note_data) (NoteData.y note_data)
      (NoteData.get_color note_data) e in
  match NoteData.width note_data, NoteData.height note_data with
  | Some w, Some h => StickyNote.geometry_size w h note
  | _, _ => note
  end.

(** [note_data] is [Some d] when the caller passes a dictionary and [None]
    when the toolbar button calls [create_new_note()]. *)
Definition create_new_note (note_data : option NoteData.t) (e : Env)
    (a : App) : App :=
  let '(note, all) :=
    match note_data with
    | Some d =>
        let note := window_for d e in
        let k := StickyNote.note_id note in
        (note,
         if existsb (has_id k) (all_notes a)
         then replace_first k (StickyNote.get_note_data note) (all_notes a)
         else (all_notes a ++ [StickyNote.get_note_data note])%list)
    | None =>
        let note := StickyNote.init None "" None None "#FFFF99" e in
        (note, (all_notes a ++ [StickyNote.get_note_data note])%list)
    end in
  refresh_note_list
    (set_notes (notes a ++ [note])%list (set_all_notes all a)).

(** *** [open_selected_note] *)
Definition open_selected_note (e : Env) (a : App) : App :=
  match selection a with
  | None => a
  | Some note_id =>
      if existsb (live_with_id note_id) (notes a) then a
      else
        match find_note note_id (all_notes a) with
        | Some note =>
            let note_data := NoteData.set_is_open true note in
            let a1 :=
              set_all_notes
                (update_first note_id (NoteData.set_is_open true)
                              (all_notes a)) a in
            create_new_note (Some note_data) e a1
        | None => a
        end
  end.

(** *** [delete_selected_note]; [confirm] is the answer to the dialog. *)
Definition delete_selected_note (confirm : bool) (a : App) : App :=
  match selection a with
  | None => a
  | Some note_id =>
      if negb confirm then a
      else
        let ws := filter (fun w => negb (live_with_id note_id w)) (notes a) in
        let all := remove_first note_id (all_notes a) in
        refresh_note_list (save_notes (set_notes ws (set_all_notes all a)))
  end.

(** *** [change_selected_note_color]; [chosen] is what the colour dialog
    returns. *)
Definition change_selected_note_color (chosen : option string) (a : App)
    : App :=
  match selection a with
  | None => a
  | Some note_id =>
      match find_note note_id (all_notes a) with
      | None => a
      | Some _ =>
          match chosen with
          | None => a
          | Some c =>
              if negb (Py.truthy c) then a
              else
                let all :=
                  update_first note_id (NoteData.set_color c) (all_notes a) in
                let ws :=
                  map (fun w => if live_with_id note_id w
                                then StickyNote.config_bg c w else w)
                      (notes a) in
                update_preview
                  (refresh_note_list
                     (save_notes (set_notes ws (set_all_notes all a))))
          end
      end
  end.

(** *** [load_notes]

    [open_notes] is computed once, after [refresh_note_list]; the
    dictionaries in it are those of [all_notes], and the keys
    [create_new_note] reads from them are never written in place, so the
    list is a list of values.  [envs k] is what the surroundings supply to
    the k-th window built. *)
Fixpoint reopen_all (envs : nat -> Env) (k : nat)
    (open_notes : list NoteData.t) (a : App) : App :=
  match open_notes with
  | [] => a
  | note_data :: rest =>
      reopen_all envs (S k) rest (create_new_note (Some note_data) (envs k) a)
  end.

Definition load_notes (envs : nat -> Env) (a : App) : App :=
  match notes_file a with
  | Missing => a
  | Corrupt => a
  | Notes l =>
      let a1 := refresh_note_list (set_all_notes l a) in
      let open_notes :=
        filter (fun note => NoteData.get_is_open note ||
                            NoteData.get_was_open note) (all_notes a1) in
      reopen_all envs 0 open_notes a1
  end.

(** *** [__init__]: empty lists, then [load_notes]. *)
Definition init_app (file : FileContent) : App :=
  mkApp [] [] file "" [] None (mkPreview "" None).

Definition launch (file : FileContent) (envs : nat -> Env) : App :=
  load_notes envs (init_app file).

(** *** [on_exit] *)

(** Body of the loop of [on_exit] for one window. *)
Definition mark_was_open (all : list NoteData.t) (w : StickyNote.t)
    : list NoteData.t :=
  if StickyNote.winfo_exists w
  then update_first (StickyNote.note_id w) (NoteData.set_was_open true) all
  else all.

Definition on_exit (a : App) : App :=
  let a1 := set_all_notes (fold_left mark_was_open (notes a) (all_notes a)) a in
  let a2 := save_notes a1 in
  set_notes (map StickyNote.destroy (notes a2)) a2.

(** *** Methods of [StickyNote] that call back into the application; the
    window is the [i]-th element of [notes]. *)

(** [StickyNote.save_note] of a window with id [note_id]. *)
Definition save_note (note_id : string) (a : App) : App :=
  update_note_in_list note_id (save_notes a).

(** The [i]-th window when it still exists on screen. *)
Definition live_window (i : nat) (a : App) : option StickyNote.t :=
  match nth_error (notes a) i with
  | Some w => if StickyNote.winfo_exists w then Some w else None
  | None => None
  end.

(** [StickyNote.save_on_focus_out] *)
Definition save_on_focus_out (i : nat) (a : App) : App :=
  match live_window i a with
  | Some w => save_note (StickyNote.note_id w) a
  | None => a
  end.

(** The dictionary [on_close] hands to [update_closed_note]. *)
Definition closed_note_data (w : StickyNote.t) : NoteData.t :=
  NoteData.set_was_open true
    (NoteData.set_is_open false (StickyNote.get_note_data w)).

(** [StickyNote.on_close] *)
Definition on_close (i : nat) (a : App) : App :=
  match live_window i a with
  | Some w =>
      let a1 := save_note (StickyNote.note_id w) a in
      let note_data := closed_note_data w in
      let a2 := update_closed_note note_data a1 in
      set_notes (update_nth i StickyNote.destroy (notes a2)) a2
  | None => a
  end.

(** [StickyNote.change_color]; [chosen] is what the colour dialog returns. *)
Definition change_color (i : nat) (chosen : option string) (a : App) : App :=
  match live_window i a, chosen with
  | Some w, Some c =>
      if Py.truthy c then
        let a1 :=
          set_notes (update_nth i (StickyNote.config_bg c) (notes a)) a in
        update_note_in_list (StickyNote.note_id w)
          (save_note (StickyNote.note_id w) a1)
      else a
  | _, _ => a
  end.

(** A handler that only changes the [i]-th window. *)
Definition on_window (i : nat) (f : StickyNote.t -> StickyNote.t) (a : App)
    : App :=
  match live_window i a with
  | Some _ => set_notes (update_nth i f (notes a)) a
  | None => a
  end.

(** The user picks the row of [note_id] in the tree, which fires
    [<<TreeviewSelect>>] and so [update_preview]. *)
Definition select_row (note_id : string) (a : App) : App :=
  if existsb (fun r => String.eqb (row_id r) note_id) (tree a)
  then update_preview (set_tree (tree a) (Some note_id) a)
  else a.

(** Writing the search variable runs [filter_notes]. *)
Definition search (s : string) (a : App) : App :=
  filter_notes (set_search_var s a).

(* ------------------------------------------------------------------ *)
(** ** The preview component of [views/components/preview_panel.py] *)

Module PreviewPanelComponent.

(** [update_preview(note)]: only [note.text] and [note.color] are read. *)
Definition update_preview (note : option (string * string)) : Preview :=
  match note with
  | Some (text, color) => mkPreview text (Some color)
  | None => mkPreview "" (Some "white")
  end.

(** [clear_preview()] *)
Definition clear_preview : Preview := update_preview None.

End PreviewPanelComponent.

(* ------------------------------------------------------------------ *)
(** ** User actions and runs *)

Inductive Action : Type :=
| NewNote (e : Env)                       (* toolbar: create_new_note() *)
| SelectRow (note_id : string)
| OpenSelected (e : Env)
| DeleteSelected (confirm : bool)
| ColorSelected (chosen : option string)
| Refresh                                 (* toolbar: refresh_note_list *)
| SetSearch (s : string)
| Type_ (i : nat) (txt : string)          (* typing in window i *)
| StartDrag (i : nat) (ex ey : Z)
| Drag (i : nat) (ex ey : Z)
| StartResize (i : nat) (x_root y_root : Z)
| Resize (i : nat) (x_root y_root : Z)
| FocusOut (i : nat)
| WindowColor (i : nat) (chosen : option string)
| CloseWindow (i : nat)
| ExitAndLaunch (envs : nat -> Env).      (* on_exit, then a new start *)

Definition step (a : App) (act : Action) : App :=
  match act with
  | NewNote e => create_new_note None e a
  | SelectRow k => select_row k a
  | OpenSelected e => open_selected_note e a
  | DeleteSelected c => delete_selected_note c a
  | ColorSelected c => change_selected_note_color c a
  | Refresh => refresh_note_list a
  | SetSearch s => search s a
  | Type_ i txt => on_window i (StickyNote.set_text txt) a
  | StartDrag i ex ey => on_window i (StickyNote.start_drag ex ey) a
  | Drag i ex ey => on_window i (StickyNote.on_drag ex ey) a
  | StartResize i xr yr => on_window i (StickyNote.start_resize xr yr) a
  | Resize i xr yr => on_window i (StickyNote.on_resize xr yr) a
  | FocusOut i => save_on_focus_out i a
  | WindowColor i c => change_color i c a
  | CloseWindow i => on_close i a
  | ExitAndLaunch envs => launch (notes_file (on_exit a)) envs
  end.

Definition run (a : App) (acts : list Action) : App := fold_left step acts a.

(* ------------------------------------------------------------------ *)
(** ** Predicates used in the statements *)

(** A window with id [k] is on screen. *)
Definition live_window_with_id (k : string) (a : App) : Prop :=
  exists w, In w (notes a) /\ StickyNote.winfo_exists w = true /\
            StickyNote.note_id w = k.

(** The ids of the store, in order. *)
Definition ids (all : list NoteData.t) : list string := map NoteData.id all.



(** [b] keeps the id of [a], and [was_open] if [a] has it. *)
Definition keeps_was_open (a b : NoteData.t) : Prop :=
  NoteData.id b = NoteData.id a /\
  (NoteData.was_open a = Some true -> NoteData.was_open b = Some true).

(** Position by position, [s'] keeps the ids and the [was_open] flags of
    [s]; [s'] may be longer. *)
Inductive extends_store : list NoteData.t -> list NoteData.t -> Prop :=
| extends_nil : forall s', extends_store [] s'
| extends_cons : forall a b s s',
    keeps_was_open a b -> extends_store s s' ->
    extends_store (a :: s) (b :: s').

(** The first note with id [k] is marked open. *)
Definition first_open (k : string) (all : list NoteData.t) : Prop :=
  exists n, find_note k all = Some n /\ NoteData.is_open n = Some true.

(** [needle] is a substring of [hay]. *)
Definition occurs (needle hay : string) : Prop :=
  exists p q, hay = p ++ needle ++ q.


(** The notes an action does not delete. *)
Definition surviving (a : App) (act : Action) : list NoteData.t :=
  match act, selection a with
  | DeleteSelected true, Some k => remove_first k (all_notes a)
  | _, _ => all_notes a
  end.

(** [window_for] applied to the notes of [l], the surroundings counted from
    [k]. *)
Fixpoint windows_for (envs : nat -> Env) (k : nat) (l : list NoteData.t)
    : list StickyNote.t :=
  match l with
  | [] => []
  | d :: rest => window_for d (envs k) :: windows_for envs (S k) rest
  end.

(** The clock never gives the new-note button an id the store already
    has. *)
Fixpoint fresh_clock (a : App) (acts : list Action) : Prop :=
  match acts with
  | [] => True
  | act :: rest =>
      (forall e, act = NewNote e -> ~ In (now e) (ids (all_notes a))) /\
      fresh_clock (step a act) rest
  end.

(** The tree shows only notes of the store, and the selected row is one of
    them. *)
Definition synced (a : App) : Prop :=
  incl (map row_id (tree a)) (ids (all_notes a)) /\
  (forall k, selection a = Some k -> In k (ids (all_notes a))).

(** The action is not a confirmed deletion. *)
Definition keeps_all (act : Action) : Prop :=
  match act with
  | DeleteSelected true => False
  | _ => True
  end.

(* ------------------------------------------------------------------ *)
(** ** Example data *)

Definition noon : Env := mkEnv "20240101120000" 60 70.
Definition noon_again : Env := mkEnv "20240101120000" 80 90.
Definition always (e : Env) : nat -> Env := fun _ => e.

(** Two notes made within the same second, both closed, the list
    refreshed, and the row reopened. *)
Definition same_second_run : list Action :=
  [NewNote noon; NewNote noon_again; CloseWindow 0; CloseWindow 1; Refresh;
   SelectRow "20240101120000"; OpenSelected noon].

(** A note is made, "hello" is typed, the window loses the focus and is
    closed. *)
Definition hello_run : list Action :=
  [NewNote noon; Type_ 0 "hello"; FocusOut 0; CloseWindow 0].

(** A note saved as open by a version that did not write [was_open]. *)
Definition open_never_marked : NoteData.t :=
  NoteData.mk "20230505101010" (Some "milk") (Some 10%Z) (Some 20%Z)
    (Some 200%Z) (Some 200%Z) (Some "#FFFF99") (Some true) None.

(** The same with [was_open] written as false. *)
Definition open_marked_false : NoteData.t :=
  NoteData.mk "20230505101010" (Some "milk") (Some 10%Z) (Some 20%Z)
    (Some 200%Z) (Some 200%Z) (Some "#FFFF99") (Some true) (Some false).

(** A closed note that was open before. *)
Definition closed_was_open : NoteData.t :=
  NoteData.mk "20230505101010" (Some "milk") (Some 10%Z) (Some 20%Z)
    (Some 200%Z) (Some 200%Z) (Some "#FFFF99") (Some false) (Some true).

(** One open note whose window holds text the store has not seen yet. *)
Definition typed_not_flushed : App :=
  run (launch Missing (always noon)) [NewNote noon; Type_ 0 "new"].

Definition stranger : NoteData.t :=
  NoteData.mk "19990101000000" (Some "") (Some 0%Z) (Some 0%Z)
    (Some 200%Z) (Some 200%Z) (Some "#FFFF99") (Some false) (Some true).

(** A note whose text, and not whose id, has the word "eggs". *)
Definition buy_eggs : NoteData.t :=
  NoteData.mk "20230606111111" (Some "Buy Eggs") (Some 1%Z)
    (Some 2%Z) (Some 200%Z) (Some 200%Z) (Some "#FFFF99")
    (Some false) (Some true).

(** Two notes, the search word only in the text of the second. *)
Definition shopping : App :=
  mkApp [] [closed_was_open; buy_eggs]
        Missing "eggs" [] None (mkPreview "" None).


(** The handler of the action reaches [save_notes]: the window of a focus
    loss, a close or a colour change is on screen and a colour was chosen;
    a deletion is confirmed and a row is selected; a colour was chosen for
    a selected row whose note is in the store. *)
Definition saves (a : App) (act : Action) : bool :=
  match act with
  | FocusOut i | CloseWindow i =>
      match live_window i a with Some _ => true | None => false end
  | WindowColor i (Some c) =>
      match live_window i a with Some _ => Py.truthy c | None => false end
  | DeleteSelected true =>
      match selection a with Some _ => true | None => false end
  | ColorSelected (Some c) =>
      match selection a with
      | Some k =>
          match find_note k (all_notes a) with
          | Some _ => Py.truthy c
          | None => false
          end
      | None => false
      end
  | _ => false
  end.

(** The action ends the program. *)
Definition exits (act : Action) : bool :=
  match act with
  | ExitAndLaunch _ => true
  | _ => false
  end.

(** A window was dragged to a new place, given a colour and some text,
    and the store has not seen any of it yet. *)
Definition two_stale_notes : App :=
  run (launch Missing (always noon))
      [NewNote noon; NewNote (mkEnv "20240101120005" 5 6);
       Type_ 0 "alpha"; Type_ 1 "beta"; CloseWindow 1; Type_ 0 "gamma"].

(** The row of the second of two notes is selected. *)
Definition second_selected : App :=
  step two_stale_notes (SelectRow "20240101120005").

(** A file of three notes; the second was never open. *)
Definition three_notes_file : list NoteData.t :=
  [closed_was_open;
   NoteData.mk "20230606111111" (Some "Buy Eggs") (Some 1%Z) (Some 2%Z)
     (Some 300%Z) (Some 150%Z) (Some "#CCFFCC") (Some false) (Some false);
   NoteData.mk "20230707121212" (Some "call home") None None
     None None None None (Some true)].

(** Empty, or beginning with a character that [strip()] keeps. *)
Definition headed (s : string) : Prop :=
  match s with
  | EmptyString => True
  | String c _ => Py.is_space c = false
  end.

(** A window with text typed in, moved and resized. *)
Definition busy_window : StickyNote.t :=
  StickyNote.mk "20240101120000" "  to do:
 - milk  " 300 40 250 180 "#CCFFCC" 7 8 200 200 3 4 true.

(** The character [c] occurs in [s]. *)
Fixpoint has_char (c : ascii) (s : string) : bool :=
  match s with
  | EmptyString => false
  | String d s' => Ascii.eqb d c || has_char c s'
  end.

(** A note of ninety letters on two lines. *)
Definition long_note : NoteData.t :=
  NoteData.mk "20240101120000"
    (Some "0123456789012345678901234567890123456789
0123456789012345678901234567890123456789012345678")
    None None None None None None None.

(** The tree is the filtered projection of the store for the current
    search string, and the selected row is one of its rows. *)
Definition viewed (a : App) : Prop :=
  tree a = tree_rows (Py.lower (search_var a)) (all_notes a) /\
  (forall k, selection a = Some k -> In k (map row_id (tree a))).

(** The file is missing, unreadable, or has distinct ids. *)
Definition file_ids_distinct (f : FileContent) : Prop :=
  match f with
  | Notes l => NoDup (ids l)
  | _ => True
  end.

(** Two notes are made, the second is searched for, selected and closed. *)
Definition busy_run : list Action :=
  [NewNote noon; NewNote (mkEnv "20240101120005" 5 6); Type_ 1 "beta";
   FocusOut 1; SetSearch "BET"; SelectRow "20240101120005"; CloseWindow 1].

(** The first note with id [k] is what [get_note_data] reads from a window
    of [ws] that is on screen and has id [k]. *)
Definition held (k : string) (ws : list StickyNote.t)
    (all : list NoteData.t) : Prop :=
  exists w, In w ws /\ StickyNote.winfo_exists w = true /\
            StickyNote.note_id w = k /\
            find_note k all = Some (StickyNote.get_note_data w).

(** The first of two notes is closed and its row selected. *)
Definition closed_selected : App :=
  run (launch Missing (always noon))
      [NewNote noon; NewNote (mkEnv "20240101120005" 5 6); Type_ 0 "alpha";
       CloseWindow 0; Refresh; SelectRow "20240101120000"].

(** A resize gesture: the button goes down on the corner handle with the
    pointer at [(x0, y0)], then the pointer moves through the places of
    [ps]. *)
Definition resize_gesture (x0 y0 : Z) (ps : list (Z * Z))
    (w : StickyNote.t) : StickyNote.t :=
  fold_left (fun s p => StickyNote.on_resize (fst p) (snd p) s) ps
            (StickyNote.start_resize x0 y0 w).

(* ------------------------------------------------------------------ *)
(** ** Facts on the loops that stop at the first match *)

Section FirstMatch.

Variable k : string.

Lemma has_id_true (n : NoteData.t) : has_id k n = true <-> NoteData.id n = k.
Proof. unfold has_id. apply String.eqb_eq. Qed.

Lemma has_id_false (n : NoteData.t) :
  has_id k n = false <-> NoteData.id n <> k.
Proof. unfold has_id. apply String.eqb_neq. Qed.

Lemma update_first_length f all :
  length (update_first k f all) = length all.
Proof.
  induction all as [|n rest IH]; simpl; [reflexivity|].
  destruct (has_id k n); simpl; congruence.
Qed.

Lemma update_first_ids f all :
  (forall n, NoteData.id (f n) = NoteData.id n) ->
  ids (update_first k f all) = ids all.
Proof.
  intros Hf. induction all as [|n rest IH]; simpl; [reflexivity|].
  destruct (has_id k n); simpl; [rewrite Hf|rewrite IH]; reflexivity.
Qed.

Lemma replace_first_ids d all :
  NoteData.id d = k -> ids (replace_first k d all) = ids all.
Proof.
  intros Hd. unfold replace_first.
  induction all as [|n rest IH]; simpl; [reflexivity|].
  destruct (has_id k n) eqn:E; simpl.
  - apply has_id_true in E. congruence.
  - now rewrite IH.
Qed.

Lemma update_first_absent f all :
  ~ In k (ids all) -> update_first k f all = all.
Proof.
  induction all as [|n rest IH]; simpl; intros H; [reflexivity|].
  destruct (has_id k n) eqn:E.
  - apply has_id_true in E. tauto.
  - f_equal. apply IH. tauto.
Qed.

Lemma existsb_has_id all :
  existsb (has_id k) all = true <-> In k (ids all).
Proof.
  unfold ids. rewrite existsb_exists, in_map_iff.
  split; intros [n [H1 H2]]; exists n.
  - apply has_id_true in H2. tauto.
  - split; [tauto|]. now apply has_id_true.
Qed.

Lemma find_note_present all :
  In k (ids all) -> exists n, find_note k all = Some n /\ NoteData.id n = k.
Proof.
  unfold find_note.
  induction all as [|n rest IH]; simpl; intros H; [tauto|].
  destruct (has_id k n) eqn:E.
  - exists n. split; [reflexivity|]. now apply has_id_true.
  - apply has_id_false in E. destruct H as [H|H]; [congruence|auto].
Qed.

Lemma find_note_id all n : find_note k all = Some n -> NoteData.id n = k.
Proof.
  unfold find_note. intros H. apply find_some in H.
  now apply has_id_true.
Qed.

Lemma find_note_in all n : find_note k all = Some n -> In n all.
Proof. unfold find_note. intros H. now apply find_some in H. Qed.

Lemma find_note_some_ids all n : find_note k all = Some n -> In k (ids all).
Proof.
  intros H. rewrite <- (find_note_id all n H).
  apply in_map. now apply find_note_in.
Qed.

Lemma find_note_none all : find_note k all = None <-> ~ In k (ids all).
Proof.
  unfold find_note. induction all as [|n rest IH]; simpl; [tauto|].
  destruct (has_id k n) eqn:E.
  - apply has_id_true in E. split; [discriminate|tauto].
  - apply has_id_false in E. rewrite IH. tauto.
Qed.

(** With distinct ids, the first note with an id is the only one. *)
Lemma find_note_unique all n :
  NoDup (ids all) -> In n all -> NoteData.id n = k ->
  find_note k all = Some n.
Proof.
  unfold find_note.
  induction all as [|m rest IH]; simpl; intros Hnd Hin Hk; [tauto|].
  apply NoDup_cons_iff in Hnd. destruct Hnd as [Hnotin Hnd'].
  destruct Hin as [->|Hin].
  - now rewrite (proj2 (has_id_true n) Hk).
  - destruct (has_id k m) eqn:E.
    + apply has_id_true in E. exfalso. apply Hnotin.
      rewrite E, <- Hk. now apply in_map.
    + auto.
Qed.

(** The first note with id [k] after a replacement at id [k']. *)
Lemma find_note_replace_same d all :
  In k (ids all) -> NoteData.id d = k ->
  find_note k (replace_first k d all) = Some d.
Proof.
  unfold find_note, replace_first.
  induction all as [|n rest IH]; simpl; intros Hin Hd; [tauto|].
  destruct (has_id k n) eqn:E; simpl.
  - now rewrite (proj2 (has_id_true d) Hd).
  - rewrite E. apply IH; [|assumption].
    apply has_id_false in E. destruct Hin; [congruence|assumption].
Qed.

Lemma find_note_update_other k' f all :
  k' <> k -> (forall n, NoteData.id (f n) = NoteData.id n) ->
  find_note k (update_first k' f all) = find_note k all.
Proof.
  unfold find_note. intros Hne Hf.
  induction all as [|n rest IH]; simpl; [reflexivity|].
  destruct (has_id k' n) eqn:E'; simpl.
  - apply String.eqb_eq in E'.
    assert (has_id k n = false) as ->
      by (apply has_id_false; congruence).
    assert (has_id k (f n) = false) as ->
      by (apply has_id_false; rewrite Hf; congruence).
    reflexivity.
  - destruct (has_id k n); [reflexivity|apply IH].
Qed.

Lemma find_note_replace_other k' d all :
  k' <> k -> NoteData.id d = k' ->
  find_note k (replace_first k' d all) = find_note k all.
Proof.
  unfold find_note, replace_first. intros Hne Hd.
  induction all as [|n rest IH]; simpl; [reflexivity|].
  destruct (has_id k' n) eqn:E'; simpl.
  - apply String.eqb_eq in E'.
    assert (has_id k n = false) as ->
      by (apply has_id_false; congruence).
    assert (has_id k d = false) as ->
      by (apply has_id_false; congruence).
    reflexivity.
  - destruct (has_id k n); [reflexivity|apply IH].
Qed.

End FirstMatch.

Lemma mem_id_true k l : mem_id k l = true <-> In k l.
Proof.
  unfold mem_id. rewrite existsb_exists. split.
  - intros [z [H1 H2]]. apply String.eqb_eq in H2. now subst.
  - intros H. exists k. split; [assumption|apply String.eqb_refl].
Qed.

Lemma open_note_ids_spec k ws :
  In k (open_note_ids ws) <->
  exists w, In w ws /\ StickyNote.winfo_exists w = true /\
            StickyNote.note_id w = k.
Proof.
  unfold open_note_ids. rewrite in_map_iff. split.
  - intros [w [H1 H2]]. apply filter_In in H2. exists w. tauto.
  - intros [w [H1 [H2 H3]]]. exists w. split; [assumption|].
    apply filter_In. tauto.
Qed.

(* ------------------------------------------------------------------ *)
(** ** The reconciliation of [refresh_note_list] *)

Lemma get_note_data_id w :
  NoteData.id (StickyNote.get_note_data w) = StickyNote.note_id w.
Proof. reflexivity. Qed.

Lemma pull_window_ids all w : ids (pull_window all w) = ids all.
Proof.
  unfold pull_window. destruct (StickyNote.winfo_exists w); [|reflexivity].
  now apply replace_first_ids.
Qed.

Lemma fold_pull_ids ws : forall all,
  ids (fold_left pull_window ws all) = ids all.
Proof.
  induction ws as [|w ws IH]; simpl; intros all; [reflexivity|].
  rewrite IH. apply pull_window_ids.
Qed.

Lemma mark_closed_ids l all : ids (mark_closed l all) = ids all.
Proof.
  unfold mark_closed, ids. rewrite map_map. apply map_ext.
  intros n. now destruct (mem_id (NoteData.id n) l).
Qed.

Lemma reconcile_ids ws all : ids (reconcile ws all) = ids all.
Proof.
  unfold reconcile. now rewrite mark_closed_ids, fold_pull_ids.
Qed.

Lemma pull_window_first_open k all w :
  first_open k all -> first_open k (pull_window all w).
Proof.
  intros [n [Hf Ho]]. unfold pull_window.
  destruct (StickyNote.winfo_exists w); [|now exists n].
  destruct (String.eqb_spec (StickyNote.note_id w) k) as [E|E].
  - exists (StickyNote.get_note_data w). split; [|reflexivity].
    rewrite E. apply find_note_replace_same; [|now rewrite get_note_data_id].
    now apply find_note_some_ids with n.
  - exists n. split; [|assumption].
    now rewrite find_note_replace_other.
Qed.

Lemma fold_pull_first_open k ws : forall all,
  first_open k all -> first_open k (fold_left pull_window ws all).
Proof.
  induction ws as [|w ws IH]; simpl; intros all H; [assumption|].
  apply IH. now apply pull_window_first_open.
Qed.

Lemma fold_pull_live k ws : forall all,
  In k (ids all) -> In k (open_note_ids ws) ->
  first_open k (fold_left pull_window ws all).
Proof.
  induction ws as [|w ws IH]; simpl; intros all Hin Hop.
  - destruct Hop.
  - unfold open_note_ids in Hop. simpl in Hop.
    destruct (StickyNote.winfo_exists w) eqn:Ex.
    + simpl in Hop. destruct Hop as [Hw|Hop].
      * apply fold_pull_first_open. unfold pull_window. rewrite Ex.
        exists (StickyNote.get_note_data w). split; [|reflexivity].
        rewrite Hw. apply find_note_replace_same; [assumption|].
        now rewrite get_note_data_id.
      * apply IH; [|assumption]. now rewrite pull_window_ids.
    + apply IH; [|assumption]. now rewrite pull_window_ids.
Qed.

Lemma find_note_mark_closed_in k l all :
  In k l -> find_note k (mark_closed l all) = find_note k all.
Proof.
  intros Hk. unfold find_note, mark_closed.
  induction all as [|n rest IH]; simpl; [reflexivity|].
  destruct (mem_id (NoteData.id n) l) eqn:E.
  - destruct (has_id k n); [reflexivity|apply IH].
  - assert (has_id k n = false) as Hn.
    { apply has_id_false. intros Hid. rewrite Hid in E.
      apply mem_id_true in Hk. congruence. }
    assert (has_id k (NoteData.set_is_open false n) = false) as ->
      by exact Hn.
    rewrite Hn. apply IH.
Qed.

(** After the two loops, the first note of a live window's id is open. *)
Lemma reconcile_live_first_open k ws all :
  In k (ids all) -> In k (open_note_ids ws) ->
  first_open k (reconcile ws all).
Proof.
  intros Hin Hop. destruct (fold_pull_live k ws all Hin Hop) as [n [Hf Ho]].
  exists n. split; [|assumption].
  unfold reconcile. now rewrite find_note_mark_closed_in.
Qed.

(** After the two loops, a note whose id no live window bears is closed. *)
Lemma reconcile_not_live_closed ws all n :
  In n (reconcile ws all) -> ~ In (NoteData.id n) (open_note_ids ws) ->
  NoteData.is_open n = Some false.
Proof.
  unfold reconcile, mark_closed. intros Hin Hno.
  apply in_map_iff in Hin. destruct Hin as [m [Hm _]].
  destruct (mem_id (NoteData.id m) (open_note_ids ws)) eqn:E.
  - subst m. apply mem_id_true in E. tauto.
  - now subst n.
Qed.

(** With distinct ids in the store, the reconciliation makes [is_open] say
    exactly whether a live window bears the note's id. *)
Lemma reconcile_is_open_iff ws all n :
  NoDup (ids all) -> In n (reconcile ws all) ->
  (NoteData.is_open n = Some true <-> In (NoteData.id n) (open_note_ids ws)).
Proof.
  intros Hnd Hin. split.
  - intros Ho.
    destruct (in_dec string_dec (NoteData.id n) (open_note_ids ws)) as [H|H];
      [assumption|].
    pose proof (reconcile_not_live_closed ws all n Hin H). congruence.
  - intros Hop.
    assert (In (NoteData.id n) (ids all)) as Hid.
    { rewrite <- (reconcile_ids ws all). now apply in_map. }
    destruct (reconcile_live_first_open _ ws all Hid Hop) as [m [Hf Ho]].
    rewrite (find_note_unique (NoteData.id n) (reconcile ws all) n) in Hf;
      [congruence| |assumption|reflexivity].
    now rewrite reconcile_ids.
Qed.

(* ------------------------------------------------------------------ *)
(** ** [was_open] through the store operations *)

Lemma keeps_was_open_refl n : keeps_was_open n n.
Proof. split; auto. Qed.

Lemma keeps_was_open_trans a b c :
  keeps_was_open a b -> keeps_was_open b c -> keeps_was_open a c.
Proof. intros [H1 H2] [H3 H4]. split; [congruence|auto]. Qed.

Lemma extends_refl s : extends_store s s.
Proof.
  induction s; constructor; [apply keeps_was_open_refl|assumption].
Qed.

Lemma extends_trans s1 s2 : extends_store s1 s2 ->
  forall s3, extends_store s2 s3 -> extends_store s1 s3.
Proof.
  induction 1 as [|a b s s' Hab _ IH]; intros s3 H3; [constructor|].
  inversion H3 as [|b' c t t' Hbc Htl]; subst.
  constructor; [now apply keeps_was_open_trans with b|now apply IH].
Qed.

Lemma extends_app s l : extends_store s (s ++ l).
Proof.
  induction s; simpl; constructor; [apply keeps_was_open_refl|assumption].
Qed.

Lemma extends_update_first k f all :
  (forall n, has_id k n = true -> keeps_was_open n (f n)) ->
  extends_store all (update_first k f all).
Proof.
  intros Hf. induction all as [|n rest IH]; simpl; [constructor|].
  destruct (has_id k n) eqn:E; constructor;
    auto using keeps_was_open_refl, extends_refl.
Qed.

Lemma extends_replace_first k d all :
  NoteData.id d = k -> NoteData.was_open d = Some true ->
  extends_store all (replace_first k d all).
Proof.
  intros Hd Hw. apply extends_update_first. intros n Hn.
  apply has_id_true in Hn. split; [congruence|auto].
Qed.

Lemma extends_map f all :
  (forall n, keeps_was_open n (f n)) -> extends_store all (map f all).
Proof.
  intros Hf. induction all; simpl; constructor; auto.
Qed.

Lemma extends_mark_closed l all : extends_store all (mark_closed l all).
Proof.
  apply extends_map. intros n.
  destruct (mem_id (NoteData.id n) l); split; auto.
Qed.

Lemma extends_pull_window all w : extends_store all (pull_window all w).
Proof.
  unfold pull_window. destruct (StickyNote.winfo_exists w);
    [now apply extends_replace_first|apply extends_refl].
Qed.

Lemma extends_fold (f : list NoteData.t -> StickyNote.t -> list NoteData.t) :
  (forall all w, extends_store all (f all w)) ->
  forall ws all, extends_store all (fold_left f ws all).
Proof.
  intros Hf. induction ws as [|w ws IH]; simpl; intros all;
    [apply extends_refl|].
  apply extends_trans with (f all w); auto.
Qed.

Lemma extends_reconcile ws all : extends_store all (reconcile ws all).
Proof.
  unfold reconcile.
  apply extends_trans with (fold_left pull_window ws all).
  - apply extends_fold. apply extends_pull_window.
  - apply extends_mark_closed.
Qed.

Lemma extends_mark_was_open all w : extends_store all (mark_was_open all w).
Proof.
  unfold mark_was_open. destruct (StickyNote.winfo_exists w);
    [|apply extends_refl].
  apply extends_update_first. intros n _. split; simpl; auto.
Qed.

Lemma extends_nth s s' : extends_store s s' ->
  forall i n, nth_error s i = Some n ->
  exists n', nth_error s' i = Some n' /\ keeps_was_open n n'.
Proof.
  induction 1 as [|a b s s' Hab _ IH]; intros i n Hi.
  - destruct i; discriminate.
  - destruct i as [|i]; simpl in *.
    + inversion Hi; subst. now exists b.
    + now apply IH.
Qed.

(* ------------------------------------------------------------------ *)
(** ** Sizes *)



(* ------------------------------------------------------------------ *)
(** ** What each operation does to the three lists *)

Lemma refresh_all_notes a :
  all_notes (refresh_note_list a) = reconcile (notes a) (all_notes a).
Proof. reflexivity. Qed.

Lemma refresh_notes a : notes (refresh_note_list a) = notes a.
Proof. reflexivity. Qed.

Lemma refresh_notes_file a : notes_file (refresh_note_list a) = notes_file a.
Proof. reflexivity. Qed.

Lemma save_notes_all_notes a :
  all_notes (save_notes a) = reconcile (notes a) (all_notes a).
Proof. reflexivity. Qed.

Lemma save_notes_notes a : notes (save_notes a) = notes a.
Proof. reflexivity. Qed.

Lemma save_notes_file a :
  notes_file (save_notes a) = Notes (reconcile (notes a) (all_notes a)).
Proof. reflexivity. Qed.

Lemma update_preview_all_notes a : all_notes (update_preview a) = all_notes a.
Proof.
  unfold update_preview. destruct (selection a); [|reflexivity].
  now destruct (find_note s (all_notes a)).
Qed.

Lemma update_preview_notes a : notes (update_preview a) = notes a.
Proof.
  unfold update_preview. destruct (selection a); [|reflexivity].
  now destruct (find_note s (all_notes a)).
Qed.

Lemma update_preview_notes_file a :
  notes_file (update_preview a) = notes_file a.
Proof.
  unfold update_preview. destruct (selection a); [|reflexivity].
  now destruct (find_note s (all_notes a)).
Qed.

Lemma update_note_in_list_all_notes k a :
  all_notes (update_note_in_list k a) =
  match find (live_with_id k) (notes a) with
  | Some w =>
      reconcile (notes a)
        (replace_first k (StickyNote.get_note_data w) (all_notes a))
  | None => all_notes a
  end.
Proof.
  unfold update_note_in_list.
  destruct (find (live_with_id k) (notes a)); [|reflexivity].
  now rewrite update_preview_all_notes.
Qed.

Lemma update_note_in_list_notes k a :
  notes (update_note_in_list k a) = notes a.
Proof.
  unfold update_note_in_list.
  destruct (find (live_with_id k) (notes a)); [|reflexivity].
  now rewrite update_preview_notes.
Qed.

Lemma update_note_in_list_notes_file k a :
  notes_file (update_note_in_list k a) = notes_file a.
Proof.
  unfold update_note_in_list.
  destruct (find (live_with_id k) (notes a)); [|reflexivity].
  now rewrite update_preview_notes_file.
Qed.

Lemma update_closed_note_all_notes d a :
  all_notes (update_closed_note d a) =
  reconcile (notes a) (replace_first (NoteData.id d) d (all_notes a)).
Proof. reflexivity. Qed.

Lemma update_closed_note_notes d a : notes (update_closed_note d a) = notes a.
Proof. reflexivity. Qed.

Lemma update_closed_note_notes_file d a :
  notes_file (update_closed_note d a) = notes_file a.
Proof. reflexivity. Qed.

Lemma save_note_notes k a : notes (save_note k a) = notes a.
Proof. unfold save_note. now rewrite update_note_in_list_notes. Qed.

Lemma save_note_notes_file k a :
  notes_file (save_note k a) = Notes (reconcile (notes a) (all_notes a)).
Proof. unfold save_note. now rewrite update_note_in_list_notes_file. Qed.

Lemma find_live_with_id k ws w :
  find (live_with_id k) ws = Some w ->
  In w ws /\ StickyNote.winfo_exists w = true /\ StickyNote.note_id w = k.
Proof.
  intros H. apply find_some in H. destruct H as [Hin Hl].
  unfold live_with_id in Hl. apply andb_prop in Hl.
  destruct Hl as [H1 H2]. apply String.eqb_eq in H2. tauto.
Qed.

Lemma live_window_some i a w :
  live_window i a = Some w ->
  nth_error (notes a) i = Some w /\ StickyNote.winfo_exists w = true.
Proof.
  unfold live_window.
  destruct (nth_error (notes a) i) as [w'|]; [|discriminate].
  destruct (StickyNote.winfo_exists w') eqn:E; [|discriminate].
  intros H. inversion H; subst. tauto.
Qed.

(* ------------------------------------------------------------------ *)
(** ** [was_open] through the operations of the application *)

Lemma extends_refresh a :
  extends_store (all_notes a) (all_notes (refresh_note_list a)).
Proof. rewrite refresh_all_notes. apply extends_reconcile. Qed.

Lemma extends_save_notes a :
  extends_store (all_notes a) (all_notes (save_notes a)).
Proof. rewrite save_notes_all_notes. apply extends_reconcile. Qed.

Lemma extends_update_note_in_list k a :
  extends_store (all_notes a) (all_notes (update_note_in_list k a)).
Proof.
  rewrite update_note_in_list_all_notes.
  destruct (find (live_with_id k) (notes a)) as [w|] eqn:E;
    [|apply extends_refl].
  apply find_live_with_id in E. destruct E as (_ & _ & Hk).
  eapply extends_trans; [|apply extends_reconcile].
  now apply extends_replace_first.
Qed.

Lemma extends_update_closed_note d a :
  NoteData.was_open d = Some true ->
  extends_store (all_notes a) (all_notes (update_closed_note d a)).
Proof.
  intros Hd. rewrite update_closed_note_all_notes.
  eapply extends_trans; [|apply extends_reconcile].
  now apply extends_replace_first.
Qed.

Lemma extends_save_note k a :
  extends_store (all_notes a) (all_notes (save_note k a)).
Proof.
  unfold save_note.
  eapply extends_trans; [apply extends_save_notes|].
  apply extends_update_note_in_list.
Qed.

Lemma extends_create_new_note d e a :
  extends_store (all_notes a) (all_notes (create_new_note d e a)).
Proof.
  unfold create_new_note.
  destruct d as [d|].
  - destruct (existsb (has_id (StickyNote.note_id (window_for d e)))
                      (all_notes a));
      (eapply extends_trans; [|apply extends_refresh]); simpl.
    + now apply extends_replace_first.
    + apply extends_app.
  - eapply extends_trans; [|apply extends_refresh]. simpl.
    apply extends_app.
Qed.

Lemma extends_open_selected_note e a :
  extends_store (all_notes a) (all_notes (open_selected_note e a)).
Proof.
  unfold open_selected_note.
  destruct (selection a) as [k|]; [|apply extends_refl].
  destruct (existsb (live_with_id k) (notes a)); [apply extends_refl|].
  destruct (find_note k (all_notes a)) as [n|]; [|apply extends_refl].
  eapply extends_trans; [|apply extends_create_new_note]. simpl.
  apply extends_update_first. intros m _. split; simpl; auto.
Qed.

Lemma extends_change_selected_note_color c a :
  extends_store (all_notes a) (all_notes (change_selected_note_color c a)).
Proof.
  unfold change_selected_note_color.
  destruct (selection a) as [k|]; [|apply extends_refl].
  destruct (find_note k (all_notes a)) as [n|]; [|apply extends_refl].
  destruct c as [c|]; [|apply extends_refl].
  destruct (negb (Py.truthy c)); [apply extends_refl|].
  rewrite update_preview_all_notes.
  eapply extends_trans; [|apply extends_refresh].
  eapply extends_trans; [|apply extends_save_notes]. simpl.
  apply extends_update_first. intros m _. split; simpl; auto.
Qed.

Lemma extends_delete_selected_note k a :
  selection a = Some k ->
  extends_store (remove_first k (all_notes a))
                (all_notes (delete_selected_note true a)).
Proof.
  intros Hs. unfold delete_selected_note. rewrite Hs. simpl negb. cbv iota.
  eapply extends_trans; [|apply extends_refresh].
  eapply extends_trans; [|apply extends_save_notes]. simpl.
  apply extends_refl.
Qed.

Lemma extends_on_exit a :
  extends_store (all_notes a) (all_notes (on_exit a)).
Proof.
  unfold on_exit. simpl.
  eapply extends_trans; [|apply extends_reconcile].
  apply extends_fold. apply extends_mark_was_open.
Qed.

Lemma closed_note_data_was_open w :
  NoteData.was_open (closed_note_data w) = Some true.
Proof. reflexivity. Qed.

Lemma extends_on_close i a :
  extends_store (all_notes a) (all_notes (on_close i a)).
Proof.
  unfold on_close. destruct (live_window i a) as [w|]; [|apply extends_refl].
  simpl.
  eapply extends_trans; [apply (extends_save_note (StickyNote.note_id w))|].
  apply (extends_update_closed_note (closed_note_data w)).
  reflexivity.
Qed.

Lemma extends_change_color i c a :
  extends_store (all_notes a) (all_notes (change_color i c a)).
Proof.
  unfold change_color.
  destruct (live_window i a) as [w|]; [|apply extends_refl].
  destruct c as [c|]; [|apply extends_refl].
  destruct (Py.truthy c); [|apply extends_refl].
  eapply extends_trans; [|apply extends_update_note_in_list].
  apply (extends_save_note (StickyNote.note_id w)
           (set_notes (update_nth i (StickyNote.config_bg c) (notes a)) a)).
Qed.

Lemma on_window_all_notes i f a : all_notes (on_window i f a) = all_notes a.
Proof. unfold on_window. now destruct (live_window i a). Qed.

Lemma select_row_all_notes k a : all_notes (select_row k a) = all_notes a.
Proof.
  unfold select_row.
  destruct (existsb (fun r => String.eqb (row_id r) k) (tree a));
    [|reflexivity].
  now rewrite update_preview_all_notes.
Qed.

Lemma extends_reopen_all envs l : forall k a,
  extends_store (all_notes a) (all_notes (reopen_all envs k l a)).
Proof.
  induction l as [|d l IH]; simpl; intros k a; [apply extends_refl|].
  eapply extends_trans; [|apply IH]. apply extends_create_new_note.
Qed.

Lemma extends_load_notes envs a :
  extends_store
    (match notes_file a with Notes l => l | _ => all_notes a end)
    (all_notes (load_notes envs a)).
Proof.
  unfold load_notes. destruct (notes_file a) as [| |l]; try apply extends_refl.
  eapply extends_trans; [|apply extends_reopen_all].
  apply (extends_refresh (set_all_notes l a)).
Qed.

Lemma extends_launch envs l :
  extends_store l (all_notes (launch (Notes l) envs)).
Proof. apply (extends_load_notes envs (init_app (Notes l))). Qed.

Lemma on_exit_notes_file a :
  notes_file (on_exit a) = Notes (all_notes (on_exit a)).
Proof. reflexivity. Qed.

Lemma extends_step a act :
  extends_store (surviving a act) (all_notes (step a act)).
Proof.
  destruct act; simpl step; unfold surviving;
    try (destruct (selection a); fail);
    try rewrite on_window_all_notes;
    auto using extends_refl, extends_create_new_note,
      extends_open_selected_note, extends_change_selected_note_color,
      extends_refresh, extends_change_color, extends_on_close.
  - rewrite select_row_all_notes. apply extends_refl.
  - destruct confirm.
    + destruct (selection a) as [k|] eqn:Hs.
      * now apply extends_delete_selected_note.
      * unfold delete_selected_note. rewrite Hs. apply extends_refl.
    + unfold delete_selected_note.
      destruct (selection a); apply extends_refl.
  - unfold save_on_focus_out. destruct (live_window i a) as [w|];
      [apply extends_save_note|apply extends_refl].
  - eapply extends_trans; [apply extends_on_exit|].
    apply (extends_launch envs (all_notes (on_exit a))).
Qed.

(* ------------------------------------------------------------------ *)
(** ** The ids of the store through the operations *)

Lemma ids_refresh a :
  ids (all_notes (refresh_note_list a)) = ids (all_notes a).
Proof. rewrite refresh_all_notes. apply reconcile_ids. Qed.

Lemma ids_save_notes a : ids (all_notes (save_notes a)) = ids (all_notes a).
Proof. rewrite save_notes_all_notes. apply reconcile_ids. Qed.

Lemma ids_update_note_in_list k a :
  ids (all_notes (update_note_in_list k a)) = ids (all_notes a).
Proof.
  rewrite update_note_in_list_all_notes.
  destruct (find (live_with_id k) (notes a)) as [w|] eqn:E; [|reflexivity].
  apply find_live_with_id in E. destruct E as (_ & _ & Hk).
  rewrite reconcile_ids. now apply replace_first_ids.
Qed.

Lemma ids_update_closed_note d a :
  ids (all_notes (update_closed_note d a)) = ids (all_notes a).
Proof.
  rewrite update_closed_note_all_notes, reconcile_ids.
  now apply replace_first_ids.
Qed.

Lemma ids_save_note k a : ids (all_notes (save_note k a)) = ids (all_notes a).
Proof.
  unfold save_note. now rewrite ids_update_note_in_list, ids_save_notes.
Qed.

Lemma ids_on_close i a : ids (all_notes (on_close i a)) = ids (all_notes a).
Proof.
  unfold on_close. destruct (live_window i a) as [w|]; [|reflexivity].
  simpl all_notes.
  change (ids (all_notes (update_closed_note (closed_note_data w)
                            (save_note (StickyNote.note_id w) a))) =
          ids (all_notes a)).
  now rewrite ids_update_closed_note, ids_save_note.
Qed.

Lemma ids_change_color i c a :
  ids (all_notes (change_color i c a)) = ids (all_notes a).
Proof.
  unfold change_color. destruct (live_window i a) as [w|]; [|reflexivity].
  destruct c as [c|]; [|reflexivity].
  destruct (Py.truthy c); [|reflexivity].
  now rewrite ids_update_note_in_list, ids_save_note.
Qed.

Lemma ids_fold_mark ws : forall all,
  ids (fold_left mark_was_open ws all) = ids all.
Proof.
  induction ws as [|w ws IH]; simpl; intros all; [reflexivity|].
  rewrite IH. unfold mark_was_open.
  destruct (StickyNote.winfo_exists w); [|reflexivity].
  now apply update_first_ids.
Qed.

Lemma ids_on_exit a : ids (all_notes (on_exit a)) = ids (all_notes a).
Proof.
  unfold on_exit. simpl all_notes. now rewrite reconcile_ids, ids_fold_mark.
Qed.

Lemma ids_change_selected_note_color c a :
  ids (all_notes (change_selected_note_color c a)) = ids (all_notes a).
Proof.
  unfold change_selected_note_color.
  destruct (selection a) as [k|]; [|reflexivity].
  destruct (find_note k (all_notes a)); [|reflexivity].
  destruct c as [c|]; [|reflexivity].
  destruct (negb (Py.truthy c)); [reflexivity|].
  rewrite update_preview_all_notes, ids_refresh, ids_save_notes. simpl.
  now apply update_first_ids.
Qed.

(** *** Distinct ids *)

Lemma ids_app l1 l2 : ids (l1 ++ l2) = (ids l1 ++ ids l2)%list.
Proof. unfold ids. apply map_app. Qed.

Lemma NoDup_snoc (l : list string) k :
  NoDup l -> ~ In k l -> NoDup (l ++ [k]).
Proof.
  intros Hl Hk. apply NoDup_app; [assumption|repeat constructor; auto|].
  intros z Hz [Hz'|[]]. subst. tauto.
Qed.

Lemma NoDup_remove_first k all :
  NoDup (ids all) -> NoDup (ids (remove_first k all)).
Proof.
  induction all as [|n rest IH]; simpl; intros H; [assumption|].
  apply NoDup_cons_iff in H. destruct H as [Hn Hrest].
  destruct (has_id k n); [assumption|]. simpl.
  constructor; [|auto]. intros Hin. apply Hn.
  clear - Hin. induction rest as [|m rest IH]; simpl in *; [assumption|].
  destruct (has_id k m); simpl in *; tauto.
Qed.

Lemma NoDup_create_some d e a :
  NoDup (ids (all_notes a)) ->
  NoDup (ids (all_notes (create_new_note (Some d) e a))).
Proof.
  intros H. unfold create_new_note. rewrite ids_refresh. simpl all_notes.
  destruct (existsb (has_id (StickyNote.note_id (window_for d e)))
                    (all_notes a)) eqn:E.
  - now rewrite replace_first_ids.
  - rewrite ids_app. apply NoDup_snoc; [assumption|].
    intros Hin. apply existsb_has_id in Hin. simpl in Hin. congruence.
Qed.

Lemma NoDup_create_none e a :
  NoDup (ids (all_notes a)) -> ~ In (now e) (ids (all_notes a)) ->
  NoDup (ids (all_notes (create_new_note None e a))).
Proof.
  intros H Hfresh. unfold create_new_note. rewrite ids_refresh.
  simpl all_notes. rewrite ids_app. now apply NoDup_snoc.
Qed.

Lemma NoDup_open_selected_note e a :
  NoDup (ids (all_notes a)) ->
  NoDup (ids (all_notes (open_selected_note e a))).
Proof.
  intros H. unfold open_selected_note.
  destruct (selection a) as [k|]; [|assumption].
  destruct (existsb (live_with_id k) (notes a)); [assumption|].
  destruct (find_note k (all_notes a)) as [n|]; [|assumption].
  apply NoDup_create_some. simpl. now rewrite update_first_ids.
Qed.

Lemma NoDup_delete_selected_note c a :
  NoDup (ids (all_notes a)) ->
  NoDup (ids (all_notes (delete_selected_note c a))).
Proof.
  intros H. unfold delete_selected_note.
  destruct (selection a) as [k|]; [|assumption].
  destruct (negb c); [assumption|].
  rewrite ids_refresh, ids_save_notes. simpl.
  now apply NoDup_remove_first.
Qed.

Lemma NoDup_reopen_all envs l : forall k a,
  NoDup (ids (all_notes a)) ->
  NoDup (ids (all_notes (reopen_all envs k l a))).
Proof.
  induction l as [|d l IH]; simpl; intros k a H; [assumption|].
  now apply IH, NoDup_create_some.
Qed.

Lemma NoDup_launch l envs :
  NoDup (ids l) -> NoDup (ids (all_notes (launch (Notes l) envs))).
Proof.
  intros H. unfold launch, load_notes. simpl notes_file. cbv iota.
  apply NoDup_reopen_all. now rewrite ids_refresh.
Qed.

(** Every action keeps the ids distinct, the toolbar's new note only when
    the clock gives an id the store does not have yet. *)
Lemma NoDup_step a act :
  NoDup (ids (all_notes a)) ->
  (forall e, act = NewNote e -> ~ In (now e) (ids (all_notes a))) ->
  NoDup (ids (all_notes (step a act))).
Proof.
  intros H Hfresh. destruct act; simpl step.
  - apply NoDup_create_none; auto.
  - now rewrite select_row_all_notes.
  - now apply NoDup_open_selected_note.
  - now apply NoDup_delete_selected_note.
  - now rewrite ids_change_selected_note_color.
  - now rewrite ids_refresh.
  - exact H.
  - now rewrite on_window_all_notes.
  - now rewrite on_window_all_notes.
  - now rewrite on_window_all_notes.
  - now rewrite on_window_all_notes.
  - now rewrite on_window_all_notes.
  - unfold save_on_focus_out. destruct (live_window i a);
      [now rewrite ids_save_note|assumption].
  - now rewrite ids_change_color.
  - now rewrite ids_on_close.
  - apply (NoDup_launch (all_notes (on_exit a))). now rewrite ids_on_exit.
Qed.

(** With distinct ids, right after [refresh_note_list] a note is marked
    open exactly when a live window bears its id. *)
Lemma refresh_is_open_iff a n :
  NoDup (ids (all_notes a)) -> In n (all_notes (refresh_note_list a)) ->
  (NoteData.is_open n = Some true <->
   live_window_with_id (NoteData.id n) (refresh_note_list a)).
Proof.
  intros Hnd Hin. rewrite refresh_all_notes in Hin.
  rewrite (reconcile_is_open_iff (notes a) (all_notes a) n Hnd Hin).
  unfold live_window_with_id. rewrite refresh_notes.
  apply open_note_ids_spec.
Qed.

(* ------------------------------------------------------------------ *)
(** ** Closing a window *)

Lemma in_update_nth {A} (f : A -> A) (l : list A) : forall i z,
  In z (update_nth i f l) ->
  (exists j, j <> i /\ nth_error l j = Some z) \/
  (exists z0, nth_error l i = Some z0 /\ z = f z0).
Proof.
  induction l as [|a r IH]; intros i z Hin; simpl in Hin.
  - destruct i; destruct Hin.
  - destruct i as [|i]; simpl in Hin.
    + destruct Hin as [<-|Hin].
      * right. now exists a.
      * left. apply In_nth_error in Hin. destruct Hin as [j Hj].
        exists (S j). split; [discriminate|exact Hj].
    + destruct Hin as [<-|Hin].
      * left. exists 0. split; [discriminate|reflexivity].
      * destruct (IH i z Hin) as [[j [Hj1 Hj2]]|[z0 [Hz1 Hz2]]].
        -- left. exists (S j). split; [congruence|exact Hj2].
        -- right. now exists z0.
Qed.

Lemma live_window_open_id i a w :
  live_window i a = Some w ->
  In (StickyNote.note_id w) (open_note_ids (notes a)).
Proof.
  intros H. apply live_window_some in H. destruct H as [Hn Hex].
  apply open_note_ids_spec. exists w. split; [|tauto].
  now apply nth_error_In with i.
Qed.

(** What [on_close] leaves in the three lists. *)
Lemma on_close_all_notes i a w :
  live_window i a = Some w ->
  all_notes (on_close i a) =
  reconcile (notes a)
    (replace_first (StickyNote.note_id w) (closed_note_data w)
       (all_notes (save_note (StickyNote.note_id w) a))).
Proof.
  intros H. unfold on_close. rewrite H. simpl all_notes.
  change (all_notes
            (update_closed_note (closed_note_data w)
               (save_note (StickyNote.note_id w) a)) =
          reconcile (notes a)
            (replace_first (StickyNote.note_id w) (closed_note_data w)
               (all_notes (save_note (StickyNote.note_id w) a)))).
  rewrite update_closed_note_all_notes, save_note_notes. reflexivity.
Qed.

Lemma on_close_notes i a w :
  live_window i a = Some w ->
  notes (on_close i a) = update_nth i StickyNote.destroy (notes a).
Proof.
  intros H. unfold on_close. rewrite H. simpl notes.
  change (update_nth i StickyNote.destroy
            (notes (update_closed_note (closed_note_data w)
                      (save_note (StickyNote.note_id w) a))) =
          update_nth i StickyNote.destroy (notes a)).
  now rewrite update_closed_note_notes, save_note_notes.
Qed.

Lemma on_close_notes_file i a w :
  live_window i a = Some w ->
  notes_file (on_close i a) = Notes (reconcile (notes a) (all_notes a)).
Proof.
  intros H. unfold on_close. rewrite H. simpl notes_file.
  change (notes_file
            (update_closed_note (closed_note_data w)
               (save_note (StickyNote.note_id w) a)) =
          Notes (reconcile (notes a) (all_notes a))).
  now rewrite update_closed_note_notes_file, save_note_notes_file.
Qed.

(** *** What the store holds for the closed window *)

Lemma pull_window_keeps_first k d all w :
  find_note k all = Some d ->
  (StickyNote.winfo_exists w = true -> StickyNote.note_id w = k ->
   StickyNote.get_note_data w = d) ->
  find_note k (pull_window all w) = Some d.
Proof.
  intros Hf Hsame. unfold pull_window.
  destruct (StickyNote.winfo_exists w) eqn:Ex; [|assumption].
  destruct (String.eqb_spec (StickyNote.note_id w) k) as [E|E].
  - rewrite <- (Hsame eq_refl E), E.
    apply find_note_replace_same; [|now rewrite get_note_data_id].
    now apply find_note_some_ids with d.
  - now rewrite find_note_replace_other.
Qed.

Lemma fold_pull_keeps_first k d ws : forall all,
  find_note k all = Some d ->
  (forall w, In w ws -> StickyNote.winfo_exists w = true ->
             StickyNote.note_id w = k -> StickyNote.get_note_data w = d) ->
  find_note k (fold_left pull_window ws all) = Some d.
Proof.
  induction ws as [|w ws IH]; simpl; intros all Hf Hsame; [assumption|].
  apply IH; [|auto]. apply pull_window_keeps_first; auto.
Qed.

(** When all live windows with id [k] hold the same data, the first note
    with id [k] holds that data after the reconciliation. *)
Lemma reconcile_flushes k w ws all :
  In w ws -> StickyNote.winfo_exists w = true -> StickyNote.note_id w = k ->
  (forall w', In w' ws -> StickyNote.winfo_exists w' = true ->
              StickyNote.note_id w' = k ->
              StickyNote.get_note_data w' = StickyNote.get_note_data w) ->
  In k (ids all) ->
  find_note k (reconcile ws all) = Some (StickyNote.get_note_data w).
Proof.
  intros Hin Hex Hk Hsame Hid. unfold reconcile.
  rewrite find_note_mark_closed_in
    by (apply open_note_ids_spec; exists w; tauto).
  revert all Hid. induction ws as [|w0 ws IH]; intros all Hid;
    [destruct Hin|].
  simpl. destruct Hin as [->|Hin].
  - apply fold_pull_keeps_first; [|intros; apply Hsame; simpl; auto].
    unfold pull_window. rewrite Hex, Hk.
    apply find_note_replace_same; [assumption|].
    now rewrite get_note_data_id.
  - apply IH; [assumption|intros; apply Hsame; simpl; auto|].
    now rewrite pull_window_ids.
Qed.

(** When [on_close] returns, the first note with the window's id is what
    [get_note_data] reads from the window: the typed text, [was_open] true,
    and [is_open] true. *)
Lemma on_close_flushes i a w :
  live_window i a = Some w ->
  In (StickyNote.note_id w) (ids (all_notes a)) ->
  (forall w', In w' (notes a) -> StickyNote.winfo_exists w' = true ->
              StickyNote.note_id w' = StickyNote.note_id w ->
              StickyNote.get_note_data w' = StickyNote.get_note_data w) ->
  find_note (StickyNote.note_id w) (all_notes (on_close i a)) =
    Some (StickyNote.get_note_data w).
Proof.
  intros Hl Hid Hsame. rewrite (on_close_all_notes i a w Hl).
  pose proof (live_window_some i a w Hl) as [Hn Hex].
  apply reconcile_flushes; auto.
  - now apply nth_error_In with i.
  - rewrite replace_first_ids by reflexivity. now rewrite ids_save_note.
Qed.

(* ------------------------------------------------------------------ *)
(** ** The substring test *)

Lemma prefix_spec needle : forall hay,
  String.prefix needle hay = true <-> exists q, hay = needle ++ q.
Proof.
  induction needle as [|c needle IH]; intros hay.
  - split; [intros _; now exists hay|intros _; now destruct hay].
  - destruct hay as [|d hay]; simpl.
    + split; [discriminate|intros [q Hq]; discriminate].
    + destruct (Ascii.ascii_dec c d) as [->|Hne].
      * rewrite IH. split; intros [q Hq]; exists q; congruence.
      * split; [discriminate|intros [q Hq]; congruence].
Qed.

(** [contains needle hay] holds exactly when [needle] occurs in [hay]. *)
Lemma contains_spec needle : forall hay,
  Py.contains needle hay = true <-> exists p q, hay = p ++ needle ++ q.
Proof.
  induction hay as [|d hay IH]; cbn [Py.contains].
  - rewrite orb_false_r, prefix_spec. split.
    + intros [q Hq]. now exists "", q.
    + intros [p [q Hq]]. destruct p; simpl in Hq; [now exists q|discriminate].
  - rewrite orb_true_iff, prefix_spec, IH. split.
    + intros [[q Hq]|[p [q Hq]]].
      * now exists "", q.
      * exists (String d p), q. simpl. congruence.
    + intros [p [q Hq]]. destruct p as [|c p]; simpl in Hq.
      * left. now exists q.
      * right. exists p, q. congruence.
Qed.

Lemma contains_empty hay : Py.contains "" hay = true.
Proof. apply contains_spec. now exists "", hay. Qed.

(* ------------------------------------------------------------------ *)
(** ** The rows of the tree *)

Lemma tree_rows_with_filter lower s all :
  tree_rows_with lower s all =
  map make_row (filter (note_matches_with lower s) all).
Proof.
  induction all as [|n rest IH]; simpl; [reflexivity|].
  destruct (note_matches_with lower s n); simpl; now rewrite IH.
Qed.

Lemma tree_rows_filter s all :
  tree_rows s all = map make_row (filter (note_matches s) all).
Proof. apply tree_rows_with_filter. Qed.

Lemma filter_all_true {A} (f : A -> bool) l :
  (forall z, f z = true) -> filter f l = l.
Proof.
  intros Hf. induction l as [|z l IH]; simpl; [reflexivity|].
  now rewrite Hf, IH.
Qed.

(* ------------------------------------------------------------------ *)
(** ** The windows [load_notes] opens *)

Lemma create_new_note_notes d e a :
  notes (create_new_note (Some d) e a) = (notes a ++ [window_for d e])%list.
Proof.
  unfold create_new_note.
  destruct (existsb (has_id (StickyNote.note_id (window_for d e)))
                    (all_notes a)); reflexivity.
Qed.

Lemma reopen_all_notes envs l : forall k a,
  notes (reopen_all envs k l a) = (notes a ++ windows_for envs k l)%list.
Proof.
  induction l as [|d l IH]; simpl; intros k a.
  - now rewrite app_nil_r.
  - rewrite IH, create_new_note_notes, <- app_assoc. reflexivity.
Qed.

(** After a start from a readable file, the windows are those of the notes
    whose [was_open] is true: [refresh_note_list] has run on an empty list
    of windows and has set every [is_open] to [False] before the flags are
    read. *)
Lemma mark_closed_nil l : mark_closed [] l = map (NoteData.set_is_open false) l.
Proof. reflexivity. Qed.

Lemma filter_closed l :
  filter (fun note => NoteData.get_is_open note || NoteData.get_was_open note)
         (map (NoteData.set_is_open false) l) =
  filter NoteData.get_was_open (map (NoteData.set_is_open false) l).
Proof.
  apply filter_ext_in. intros n Hn. apply in_map_iff in Hn.
  destruct Hn as [m [<- _]]. reflexivity.
Qed.

Lemma launch_notes l envs :
  notes (launch (Notes l) envs) =
  windows_for envs 0
    (filter NoteData.get_was_open (map (NoteData.set_is_open false) l)).
Proof.
  unfold launch, load_notes. simpl notes_file. cbv iota.
  rewrite reopen_all_notes, refresh_all_notes. simpl notes. simpl all_notes.
  unfold reconcile. simpl fold_left. simpl open_note_ids.
  now rewrite mark_closed_nil, filter_closed.
Qed.

(* ------------------------------------------------------------------ *)
(** ** Runs in which the clock never repeats an id of the store *)

Lemma NoDup_run acts : forall a,
  NoDup (ids (all_notes a)) -> fresh_clock a acts ->
  NoDup (ids (all_notes (run a acts))).
Proof.
  unfold run. induction acts as [|act acts IH]; simpl; intros a H Hf;
    [assumption|].
  destruct Hf as [Hf1 Hf2]. apply IH; [|assumption].
  now apply NoDup_step.
Qed.

(** From an empty start, as long as the clock never repeats an id, every
    [refresh_note_list] leaves [is_open] true exactly for the notes that
    have a live window. *)
Lemma run_refresh_is_open_iff envs acts n :
  let a := refresh_note_list (run (launch Missing envs) acts) in
  fresh_clock (launch Missing envs) acts ->
  In n (all_notes a) ->
  (NoteData.is_open n = Some true <->
   live_window_with_id (NoteData.id n) a).
Proof.
  intros a Hf Hin. apply refresh_is_open_iff; [|exact Hin].
  apply NoDup_run; [constructor|exact Hf].
Qed.

(** In a run without deletion a note keeps its place, its id and a true
    [was_open]. *)
Lemma extends_run acts : forall a,
  Forall keeps_all acts ->
  extends_store (all_notes a) (all_notes (run a acts)).
Proof.
  unfold run. induction acts as [|act acts IH]; simpl; intros a H;
    [apply extends_refl|].
  inversion H as [|? ? Hact Hrest]; subst.
  eapply extends_trans; [|now apply IH].
  pose proof (extends_step a act) as Hs. unfold surviving in Hs.
  destruct act; try exact Hs.
  destruct confirm; [destruct Hact|exact Hs].
Qed.

(* ------------------------------------------------------------------ *)
(** ** The selection names a note of the store *)

Lemma row_ids_tree_rows s all : incl (map row_id (tree_rows s all)) (ids all).
Proof.
  rewrite tree_rows_filter, map_map. intros k Hk.
  apply in_map_iff in Hk. destruct Hk as [n [<- Hn]].
  apply filter_In in Hn. apply (in_map NoteData.id). tauto.
Qed.

Lemma synced_filter_notes a : synced (filter_notes a).
Proof.
  split; simpl; [apply row_ids_tree_rows|discriminate].
Qed.

Lemma synced_frame a b :
  tree b = tree a -> selection b = selection a ->
  ids (all_notes b) = ids (all_notes a) -> synced a -> synced b.
Proof.
  intros Ht Hs Hi [H1 H2]. unfold synced. now rewrite Ht, Hs, Hi.
Qed.

Lemma synced_refresh a : synced (refresh_note_list a).
Proof. apply synced_filter_notes. Qed.

Lemma synced_save_notes a : synced (save_notes a).
Proof.
  apply (synced_frame (refresh_note_list a)); try reflexivity.
  apply synced_refresh.
Qed.

Lemma synced_update_preview a : synced a -> synced (update_preview a).
Proof.
  apply synced_frame.
  - unfold update_preview. destruct (selection a) as [k|]; [|reflexivity].
    now destruct (find_note k (all_notes a)).
  - unfold update_preview. destruct (selection a) as [k|] eqn:E.
    + destruct (find_note k (all_notes a)); simpl; congruence.
    + simpl. congruence.
  - now rewrite update_preview_all_notes.
Qed.

Lemma synced_update_note_in_list k a :
  synced a -> synced (update_note_in_list k a).
Proof.
  intros H. unfold update_note_in_list.
  destruct (find (live_with_id k) (notes a)); [|assumption].
  apply synced_update_preview, synced_refresh.
Qed.

Lemma synced_save_note k a : synced (save_note k a).
Proof. apply synced_update_note_in_list, synced_save_notes. Qed.

Lemma synced_create_new_note d e a : synced (create_new_note d e a).
Proof. unfold create_new_note. destruct d; apply synced_refresh. Qed.

Lemma synced_reopen_all envs l : forall k a,
  synced a -> synced (reopen_all envs k l a).
Proof.
  induction l as [|d l IH]; simpl; intros k a H; [assumption|].
  apply IH, synced_create_new_note.
Qed.

Lemma synced_launch file envs : synced (launch file envs).
Proof.
  assert (synced (init_app file)) as H0.
  { split; simpl; [intros k []|discriminate]. }
  unfold launch, load_notes. simpl notes_file.
  destruct file as [| |l]; try exact H0.
  apply synced_reopen_all, synced_refresh.
Qed.

Lemma synced_step a act : synced a -> synced (step a act).
Proof.
  intros H. destruct act; simpl step.
  - apply synced_create_new_note.
  - unfold select_row.
    destruct (existsb (fun r => String.eqb (row_id r) note_id) (tree a))
      eqn:E; [|assumption].
    apply synced_update_preview. destruct H as [H1 H2].
    split; simpl; [assumption|].
    intros k Hk. inversion Hk; subst k. apply H1.
    apply existsb_exists in E. destruct E as [r [Hr Heq]].
    apply String.eqb_eq in Heq. rewrite <- Heq. now apply in_map.
  - unfold open_selected_note.
    destruct (selection a) as [k|]; [|assumption].
    destruct (existsb (live_with_id k) (notes a)); [assumption|].
    destruct (find_note k (all_notes a)); [|assumption].
    apply synced_create_new_note.
  - unfold delete_selected_note.
    destruct (selection a) as [k|]; [|assumption].
    destruct (negb confirm); [assumption|apply synced_refresh].
  - unfold change_selected_note_color.
    destruct (selection a) as [k|]; [|assumption].
    destruct (find_note k (all_notes a)); [|assumption].
    destruct chosen as [c|]; [|assumption].
    destruct (negb (Py.truthy c)); [assumption|].
    apply synced_update_preview, synced_refresh.
  - apply synced_refresh.
  - apply synced_filter_notes.
  - unfold on_window. now destruct (live_window i a).
  - unfold on_window. now destruct (live_window i a).
  - unfold on_window. now destruct (live_window i a).
  - unfold on_window. now destruct (live_window i a).
  - unfold on_window. now destruct (live_window i a).
  - unfold save_on_focus_out.
    destruct (live_window i a); [apply synced_save_note|assumption].
  - unfold change_color. destruct (live_window i a) as [w|]; [|assumption].
    destruct chosen as [c|]; [|assumption].
    destruct (Py.truthy c); [|assumption].
    apply synced_update_note_in_list, synced_save_note.
  - unfold on_close. destruct (live_window i a) as [w|]; [|assumption].
    apply (synced_refresh
             (set_all_notes
                (replace_first (StickyNote.note_id w) (closed_note_data w)
                   (all_notes (save_note (StickyNote.note_id w) a)))
                (save_note (StickyNote.note_id w) a))).
  - apply synced_launch.
Qed.

(** While the program runs, [update_preview] always finds the selected
    note. *)
Lemma selection_names_a_note file envs acts k :
  selection (run (launch file envs) acts) = Some k ->
  exists n, find_note k (all_notes (run (launch file envs) acts)) = Some n.
Proof.
  assert (forall l a, synced a -> synced (run a l)) as Hrun.
  { unfold run. induction l as [|act l IH]; simpl; intros a H; [assumption|].
    now apply IH, synced_step. }
  intros Hs.
  destruct (Hrun acts (launch file envs) (synced_launch file envs))
    as [_ H2].
  destruct (find_note_present k _ (H2 k Hs)) as [n [Hn _]]. now exists n.
Qed.

(* ------------------------------------------------------------------ *)
(** ** The reconciliation as an operation on stores *)

Lemma replace_first_overwrite k d1 d2 all :
  NoteData.id d1 = k ->
  replace_first k d2 (replace_first k d1 all) = replace_first k d2 all.
Proof.
  intros Hd. unfold replace_first.
  induction all as [|n rest IH]; simpl; [reflexivity|].
  destruct (has_id k n) eqn:E; simpl.
  - now rewrite (proj2 (has_id_true k d1) Hd).
  - now rewrite E, IH.
Qed.

Lemma replace_first_comm k k' d d' all :
  k <> k' -> NoteData.id d = k -> NoteData.id d' = k' ->
  replace_first k d (replace_first k' d' all) =
  replace_first k' d' (replace_first k d all).
Proof.
  intros Hne Hd Hd'. unfold replace_first.
  assert (has_id k d' = false) as Hkd'
    by (apply has_id_false; congruence).
  assert (has_id k' d = false) as Hk'd
    by (apply has_id_false; congruence).
  induction all as [|n rest IH]; simpl; [reflexivity|].
  destruct (has_id k' n) eqn:E'; destruct (has_id k n) eqn:E; simpl;
    rewrite ?E, ?E', ?Hkd', ?Hk'd; try reflexivity.
  - apply has_id_true in E, E'. congruence.
  - now rewrite IH.
Qed.

Lemma pull_window_live all w :
  StickyNote.winfo_exists w = true ->
  pull_window all w =
  replace_first (StickyNote.note_id w) (StickyNote.get_note_data w) all.
Proof. intros H. unfold pull_window. now rewrite H. Qed.

Lemma pull_window_dead all w :
  StickyNote.winfo_exists w = false -> pull_window all w = all.
Proof. intros H. unfold pull_window. now rewrite H. Qed.

(** A note overwritten before the first loop does not matter when a live
    window bears its id: the loop overwrites it again. *)
Lemma fold_pull_absorb k d ws : forall all,
  In k (open_note_ids ws) -> NoteData.id d = k ->
  fold_left pull_window ws (replace_first k d all) =
  fold_left pull_window ws all.
Proof.
  induction ws as [|w ws IH]; cbn [fold_left]; intros all Hin Hd;
    [destruct Hin|].
  unfold open_note_ids in Hin. simpl in Hin.
  destruct (StickyNote.winfo_exists w) eqn:Ex.
  - rewrite !pull_window_live by assumption.
    destruct (String.eqb_spec k (StickyNote.note_id w)) as [E|E].
    + rewrite <- E. now rewrite replace_first_overwrite.
    + rewrite <- replace_first_comm by (auto using get_note_data_id).
      apply IH; [|assumption].
      simpl in Hin. destruct Hin as [Hin|Hin]; [congruence|assumption].
  - rewrite !pull_window_dead by assumption. now apply IH.
Qed.

Lemma fold_pull_comm k d ws : forall all,
  ~ In k (open_note_ids ws) -> NoteData.id d = k ->
  fold_left pull_window ws (replace_first k d all) =
  replace_first k d (fold_left pull_window ws all).
Proof.
  induction ws as [|w ws IH]; cbn [fold_left]; intros all Hin Hd;
    [reflexivity|].
  unfold open_note_ids in Hin. simpl in Hin.
  destruct (StickyNote.winfo_exists w) eqn:Ex.
  - rewrite !pull_window_live by assumption. simpl in Hin.
    rewrite <- replace_first_comm by (auto using get_note_data_id).
    apply IH; tauto.
  - rewrite !pull_window_dead by assumption. now apply IH.
Qed.

Lemma fold_pull_idempotent ws : forall all,
  fold_left pull_window ws (fold_left pull_window ws all) =
  fold_left pull_window ws all.
Proof.
  induction ws as [|w ws IH]; cbn [fold_left]; intros all; [reflexivity|].
  destruct (StickyNote.winfo_exists w) eqn:Ex;
    [|rewrite !pull_window_dead by assumption; apply IH].
  rewrite !pull_window_live by assumption.
  set (k := StickyNote.note_id w). set (d := StickyNote.get_note_data w).
  assert (NoteData.id d = k) as Hd by reflexivity.
  destruct (in_dec string_dec k (open_note_ids ws)) as [Hin|Hin].
  - rewrite fold_pull_absorb by auto. apply IH.
  - rewrite <- (fold_pull_comm k d ws (replace_first k d all)) by auto.
    rewrite replace_first_overwrite by assumption. apply IH.
Qed.

Lemma replace_first_mark_closed k d l all :
  In k l -> NoteData.id d = k ->
  replace_first k d (mark_closed l all) =
  mark_closed l (replace_first k d all).
Proof.
  intros Hin Hd. unfold replace_first, mark_closed.
  induction all as [|n rest IH]; simpl; [reflexivity|].
  assert (has_id k (if mem_id (NoteData.id n) l then n
                    else NoteData.set_is_open false n) = has_id k n) as ->
    by (now destruct (mem_id (NoteData.id n) l)).
  destruct (has_id k n); simpl; [|now rewrite IH].
  rewrite Hd. now rewrite (proj2 (mem_id_true k l) Hin).
Qed.

Lemma fold_pull_mark_closed l ws : forall all,
  incl (open_note_ids ws) l ->
  fold_left pull_window ws (mark_closed l all) =
  mark_closed l (fold_left pull_window ws all).
Proof.
  induction ws as [|w ws IH]; cbn [fold_left]; intros all Hincl;
    [reflexivity|].
  unfold open_note_ids in Hincl. simpl in Hincl.
  destruct (StickyNote.winfo_exists w) eqn:Ex.
  - rewrite !pull_window_live by assumption.
    rewrite replace_first_mark_closed;
      [|apply Hincl; left; reflexivity|apply get_note_data_id].
    apply IH. intros z Hz. apply Hincl. now right.
  - rewrite !pull_window_dead by assumption. now apply IH.
Qed.

Lemma mark_closed_idempotent l all :
  mark_closed l (mark_closed l all) = mark_closed l all.
Proof.
  unfold mark_closed. rewrite map_map. apply map_ext. intros n.
  destruct (mem_id (NoteData.id n) l) eqn:E; [now rewrite E|].
  simpl. now rewrite E.
Qed.

Lemma reconcile_idempotent ws all :
  reconcile ws (reconcile ws all) = reconcile ws all.
Proof.
  unfold reconcile.
  rewrite fold_pull_mark_closed by apply incl_refl.
  now rewrite fold_pull_idempotent, mark_closed_idempotent.
Qed.

Lemma reconcile_absorb k d ws all :
  In k (open_note_ids ws) -> NoteData.id d = k ->
  reconcile ws (replace_first k d all) = reconcile ws all.
Proof. intros Hin Hd. unfold reconcile. now rewrite fold_pull_absorb. Qed.

Lemma save_note_all_notes k a :
  all_notes (save_note k a) = reconcile (notes a) (all_notes a).
Proof.
  unfold save_note. rewrite update_note_in_list_all_notes.
  rewrite save_notes_notes, save_notes_all_notes.
  destruct (find (live_with_id k) (notes a)) as [w|] eqn:E; [|reflexivity].
  apply find_live_with_id in E. destruct E as (Hin & Hex & Hk).
  rewrite reconcile_absorb; [apply reconcile_idempotent| |now rewrite <- Hk].
  apply open_note_ids_spec. now exists w.
Qed.

Lemma on_close_as_refresh i a w :
  live_window i a = Some w ->
  all_notes (on_close i a) = reconcile (notes a) (all_notes a).
Proof.
  intros Hl. rewrite (on_close_all_notes i a w Hl), save_note_all_notes.
  rewrite reconcile_absorb;
    [apply reconcile_idempotent|now apply live_window_open_id with i
    |reflexivity].
Qed.








(* ------------------------------------------------------------------ *)
(** ** The claims *)

(** C1.  After [refresh_note_list], [is_open] of a note should be true
    exactly when a live window bears its id.  Here two notes are made in
    the same second and so share an id; both windows are closed, the list is
    refreshed and the row is opened again.  After a last
    [refresh_note_list] the second note still says [is_open = False] while
    a live window bears its id. *)
Theorem C1_shared_id_stale_is_open :
  let a := refresh_note_list (run (launch Missing (always noon))
                                  same_second_run) in
  exists n, nth_error (all_notes a) 1 = Some n /\
            NoteData.is_open n = Some false /\
            live_window_with_id (NoteData.id n) a.
Proof.
  eexists. split; [vm_compute; reflexivity|]. split; [reflexivity|].
  eexists. split; [|split].
  - vm_compute. right. right. left. reflexivity.
  - reflexivity.
  - reflexivity.
Qed.

(** C2.  After create, type "hello", lose focus, close, the note should
    hold [text = "hello"], [is_open = False], [was_open = True].  The note
    is kept, with the text and [was_open = True], and its only window is
    gone, but [is_open] is still [True] when [on_close] returns. *)
Theorem C2_closed_note_still_marked_open :
  let a := run (launch Missing (always noon)) hello_run in
  all_notes a =
    [NoteData.mk "20240101120000" (Some "hello") (Some 60%Z) (Some 70%Z)
       (Some 200%Z) (Some 200%Z) (Some "#FFFF99") (Some true) (Some true)] /\
  map StickyNote.winfo_exists (notes a) = [false].
Proof. split; vm_compute; reflexivity. Qed.

(** C3.  The store should hold one note per id, a new note whose id is
    taken replacing the old one.  Two presses of the new-note button within
    one second leave two notes with the same id in the store. *)
Theorem C3_same_second_duplicates_id :
  let a := run (launch Missing (always noon))
               [NewNote noon; NewNote noon_again] in
  ids (all_notes a) = ["20240101120000"; "20240101120000"] /\
  ~ NoDup (ids (all_notes a)).
Proof.
  split; [vm_compute; reflexivity|].
  vm_compute. intros H. apply NoDup_cons_iff in H.
  destruct H as [H _]. apply H. left. reflexivity.
Qed.

(** C4.  After loading, a window should exist for every note whose
    [is_open] or [was_open] is true.  A file whose only note has
    [is_open = True] and no [was_open] (or [was_open = False]) opens no
    window, while the note with [was_open = True] and [is_open = False]
    gets its one window. *)
Theorem C4_open_note_not_restored :
  notes (launch (Notes [open_never_marked]) (always noon)) = [] /\
  notes (launch (Notes [open_marked_false]) (always noon)) = [] /\
  map StickyNote.note_id
      (notes (launch (Notes [closed_was_open]) (always noon))) =
    ["20230505101010"].
Proof. repeat split; vm_compute; reflexivity. Qed.

(** C5.  [was_open] is monotone.  For every action of the user (create,
    select, reopen, delete, recolour, refresh, search, type, drag, resize,
    focus loss with its save, recolour from the window, close, exit followed
    by a new start) and every note the action does not delete, the note at
    the same place afterwards has the same id and, if [was_open] was true,
    still has it true; the same holds from any file to the store loaded
    from it. *)
Theorem C5_was_open_monotone :
  (forall a act i n,
      nth_error (surviving a act) i = Some n ->
      NoteData.was_open n = Some true ->
      exists n', nth_error (all_notes (step a act)) i = Some n' /\
                 NoteData.id n' = NoteData.id n /\
                 NoteData.was_open n' = Some true) /\
  (forall l envs i n,
      nth_error l i = Some n ->
      NoteData.was_open n = Some true ->
      exists n', nth_error (all_notes (launch (Notes l) envs)) i = Some n' /\
                 NoteData.id n' = NoteData.id n /\
                 NoteData.was_open n' = Some true).
Proof.
  split.
  - intros a act i n Hi Hw.
    destruct (extends_nth _ _ (extends_step a act) i n Hi) as [n' [H1 [H2 H3]]].
    exists n'. auto.
  - intros l envs i n Hi Hw.
    destruct (extends_nth _ _ (extends_launch envs l) i n Hi)
      as [n' [H1 [H2 H3]]].
    exists n'. auto.
Qed.

(** C5 on a close after a creation, and on a file with one note. *)
Lemma C5_was_open_monotone_witness :
  (exists n', nth_error (all_notes (step (run (launch Missing (always noon))
                                              [NewNote noon])
                                         (CloseWindow 0))) 0 = Some n' /\
              NoteData.id n' = "20240101120000" /\
              NoteData.was_open n' = Some true) /\
  (exists n', nth_error (all_notes (launch (Notes [closed_was_open])
                                           (always noon))) 0 = Some n' /\
              NoteData.id n' = NoteData.id closed_was_open /\
              NoteData.was_open n' = Some true).
Proof.
  split.
  - apply (proj1 C5_was_open_monotone
             (run (launch Missing (always noon)) [NewNote noon])
             (CloseWindow 0) 0
             (NoteData.mk "20240101120000" (Some "") (Some 60%Z) (Some 70%Z)
                (Some 200%Z) (Some 200%Z) (Some "#FFFF99") (Some true)
                (Some true))).
    + vm_compute. reflexivity.
    + reflexivity.
  - apply (proj2 C5_was_open_monotone [closed_was_open] (always noon) 0
             closed_was_open).
    + reflexivity.
    + reflexivity.
Defined.



(** C7.  Whatever function [lower] is, the rows [filter_notes] computes
    for a search string and a store are those of the notes for which the
    lower-case search string is a substring of the lower-case id or of the
    lower-case text, and of no other note, in the order of the store; a
    note whose text has the search string is shown whatever its id; a
    search string whose lower case is empty keeps every note.  The tree of
    the application is filled with these rows, and with a row for every
    note when the search field is empty. *)
Theorem C7_filter_view :
  forall (lower : string -> string) (search_string : string)
         (all : list NoteData.t),
  let s := lower search_string in
  let rows := view_rows lower search_string all in
  (exists keep : NoteData.t -> bool,
     (forall n, keep n = true <->
                occurs s (lower (NoteData.id n)) \/
                occurs s (lower (NoteData.get_text n))) /\
     rows = map make_row (filter keep all) /\
     map row_id rows = ids (filter keep all)) /\
  (forall n, In n all -> occurs s (lower (NoteData.get_text n)) ->
             In (make_row n) rows) /\
  (s = "" -> rows = map make_row all) /\
  (forall a,
     tree (filter_notes a) = view_rows Py.lower (search_var a) (all_notes a) /\
     (search_var a = "" -> tree (filter_notes a) = map make_row (all_notes a))).
Proof.
  intros lower search_string all s rows.
  assert (forall n, note_matches_with lower s n = true <->
                    occurs s (lower (NoteData.id n)) \/
                    occurs s (lower (NoteData.get_text n))) as Hkeep.
  { intros n. unfold note_matches_with, occurs.
    now rewrite orb_true_iff, !contains_spec. }
  assert (rows = map make_row (filter (note_matches_with lower s) all))
    as Hrows by apply tree_rows_with_filter.
  assert (forall l z all0, l z = "" ->
            view_rows l z all0 = map make_row all0) as Hempty.
  { intros l z all0 Hz. unfold view_rows.
    rewrite tree_rows_with_filter, Hz. f_equal. apply filter_all_true.
    intros n. unfold note_matches_with. now rewrite contains_empty. }
  split; [|split; [|split]].
  - exists (note_matches_with lower s). split; [exact Hkeep|].
    split; [exact Hrows|].
    rewrite Hrows. unfold ids. now rewrite map_map.
  - intros n Hin Ht. rewrite Hrows. apply in_map, filter_In.
    split; [assumption|]. apply Hkeep. now right.
  - intros Hs. now apply Hempty.
  - intros a. split; [reflexivity|].
    intros Hs. change (tree (filter_notes a))
      with (view_rows Py.lower (search_var a) (all_notes a)).
    apply Hempty. now rewrite Hs.
Qed.

(** C7 on a store of two notes: a search for "eggs", which only the text of
    the second note has, keeps the row of that note and drops the row of
    the first; the empty search keeps both rows. *)
Lemma C7_filter_view_witness :
  In (make_row buy_eggs) (tree (filter_notes shopping)) /\
  tree (filter_notes shopping) = [make_row buy_eggs] /\
  tree (search "" shopping) = [make_row closed_was_open; make_row buy_eggs].
Proof.
  split; [|split].
  - apply (proj1 (proj2 (C7_filter_view Py.lower "eggs" (all_notes shopping)))
             buy_eggs).
    + right. left. reflexivity.
    + exists "buy ", "". reflexivity.
  - vm_compute. reflexivity.
  - apply (proj1 (proj2 (proj2
             (C7_filter_view Py.lower "" (all_notes shopping))))).
    reflexivity.
Defined.




(** C9.  When a live window whose note is in the store is closed, the file
    is written before the note is marked closed (it holds the store as
    [save_notes] reconciled it), and the [refresh_note_list] inside
    [update_closed_note] reads the window again, which still exists: when
    [on_close] returns, the first note with the window's id is marked open
    both in the store and in the file, and the window is destroyed.  At the
    next [refresh_note_list], if no other live window bears the id, every
    note with that id is marked closed. *)
Theorem C9_close_keeps_is_open_until_next_refresh : forall i a w,
  live_window i a = Some w ->
  In (StickyNote.note_id w) (ids (all_notes a)) ->
  let k := StickyNote.note_id w in
  let a' := on_close i a in
  notes_file a' = Notes (all_notes (save_notes a)) /\
  first_open k (all_notes (save_notes a)) /\
  first_open k (all_notes a') /\
  notes a' = update_nth i StickyNote.destroy (notes a) /\
  ((forall j w', j <> i -> nth_error (notes a) j = Some w' ->
                 StickyNote.winfo_exists w' = true ->
                 StickyNote.note_id w' <> k) ->
   forall n, In n (all_notes (refresh_note_list a')) ->
             NoteData.id n = k -> NoteData.is_open n = Some false).
Proof.
  intros i a w Hl Hin k a'.
  pose proof (live_window_open_id i a w Hl) as Hop.
  split; [now apply on_close_notes_file with w|].
  split.
  { rewrite save_notes_all_notes.
    now apply reconcile_live_first_open. }
  split.
  { unfold a'. rewrite (on_close_all_notes i a w Hl).
    apply reconcile_live_first_open; [|assumption].
    rewrite replace_first_ids by reflexivity.
    now rewrite ids_save_note. }
  split; [now apply on_close_notes with w|].
  intros Hother n Hn Hk.
  rewrite refresh_all_notes in Hn.
  apply (reconcile_not_live_closed _ _ _ Hn).
  unfold a'. rewrite (on_close_notes i a w Hl), Hk.
  intros Hlive. apply open_note_ids_spec in Hlive.
  destruct Hlive as [w' [Hw' [Hex Hid]]].
  apply in_update_nth in Hw'.
  destruct Hw' as [[j [Hj Hnth]]|[w0 [_ ->]]].
  - exact (Hother j w' Hj Hnth Hex Hid).
  - discriminate.
Qed.

(** C9 on the only window of a new note. *)
Lemma C9_close_keeps_is_open_until_next_refresh_witness :
  let a := run (launch Missing (always noon)) [NewNote noon; Type_ 0 "hello"] in
  first_open "20240101120000" (all_notes (on_close 0 a)) /\
  notes_file (on_close 0 a) = Notes (all_notes (save_notes a)).
Proof.
  intros a.
  pose proof (C9_close_keeps_is_open_until_next_refresh 0 a
    (StickyNote.mk "20240101120000" "hello" 60 70 200 200 "#FFFF99"
       0 0 0 0 0 0 true)) as H.
  simpl in H.
  destruct H as (H1 & _ & H3 & _).
  - vm_compute. reflexivity.
  - vm_compute. left. reflexivity.
  - split; [exact H3|exact H1].
Defined.

(** C10, as stated, at an id the store does not have: [update_closed_note]
    still runs [refresh_note_list], which here copies the text typed in the
    open window into the store. *)
Lemma C10_counterexample :
  ~ In (NoteData.id stranger) (ids (all_notes typed_not_flushed)) /\
  all_notes (update_closed_note stranger typed_not_flushed) <>
  all_notes typed_not_flushed.
Proof.
  split.
  - vm_compute. intros [H|[]]. discriminate.
  - vm_compute. discriminate.
Qed.

(** C10, amended.  [update_note_in_list], [update_closed_note] and
    [refresh_note_list] keep the ids of the store, in order, and so its
    length.  [update_note_in_list] at an id no live window bears changes
    nothing at all.  [update_closed_note] at an id the store does not have,
    and [update_note_in_list] at such an id borne by a live window, change
    the store as [refresh_note_list] alone does. *)
Theorem C10_updates_keep_records : forall a k d,
  (ids (all_notes (update_note_in_list k a)) = ids (all_notes a) /\
   ids (all_notes (update_closed_note d a)) = ids (all_notes a) /\
   ids (all_notes (refresh_note_list a)) = ids (all_notes a)) /\
  (length (all_notes (update_note_in_list k a)) = length (all_notes a) /\
   length (all_notes (update_closed_note d a)) = length (all_notes a) /\
   length (all_notes (refresh_note_list a)) = length (all_notes a)) /\
  (find (live_with_id k) (notes a) = None -> update_note_in_list k a = a) /\
  (~ In (NoteData.id d) (ids (all_notes a)) ->
   all_notes (update_closed_note d a) = all_notes (refresh_note_list a)) /\
  (forall w, find (live_with_id k) (notes a) = Some w ->
             ~ In k (ids (all_notes a)) ->
             all_notes (update_note_in_list k a) =
             all_notes (refresh_note_list a)).
Proof.
  intros a k d.
  pose proof (ids_update_note_in_list k a) as H1.
  pose proof (ids_update_closed_note d a) as H2.
  pose proof (ids_refresh a) as H3.
  split; [auto|]. split.
  { unfold ids in *. repeat split;
      [rewrite <- (length_map NoteData.id), H1
      |rewrite <- (length_map NoteData.id), H2
      |rewrite <- (length_map NoteData.id), H3]; apply length_map. }
  split; [|split].
  - intros Hnone. unfold update_note_in_list. now rewrite Hnone.
  - intros Hno. rewrite update_closed_note_all_notes, refresh_all_notes.
    unfold replace_first. now rewrite update_first_absent.
  - intros w E Hno. rewrite update_note_in_list_all_notes, E.
    unfold replace_first. now rewrite update_first_absent.
Qed.

(** C10 on an id that neither a window nor a note has, and on the id of a
    live window whose note is not in the store. *)
Lemma C10_updates_keep_records_witness :
  update_note_in_list "19990101000000" typed_not_flushed = typed_not_flushed /\
  all_notes (update_closed_note stranger typed_not_flushed) =
  all_notes (refresh_note_list typed_not_flushed) /\
  all_notes (update_note_in_list "20240101120000"
               (set_all_notes [stranger] typed_not_flushed)) =
  all_notes (refresh_note_list (set_all_notes [stranger] typed_not_flushed)).
Proof.
  pose proof (C10_updates_keep_records typed_not_flushed "19990101000000"
                stranger) as (_ & _ & H3 & H4 & _).
  pose proof (C10_updates_keep_records
                (set_all_notes [stranger] typed_not_flushed)
                "20240101120000" stranger) as (_ & _ & _ & _ & H5).
  split; [|split].
  - apply H3. vm_compute. reflexivity.
  - apply H4. vm_compute. intros [H|[]]. discriminate.
  - eapply H5.
    + vm_compute. reflexivity.
    + vm_compute. intros [H|[]]. discriminate.
Defined.

(* ------------------------------------------------------------------ *)
(** ** Further properties of the program *)

(** X1.  [refresh_note_list] is idempotent: run a second time in a row it
    changes nothing, neither in the store nor in the tree. *)
Theorem X1_refresh_idempotent : forall a,
  refresh_note_list (refresh_note_list a) = refresh_note_list a.
Proof.
  intros a. unfold refresh_note_list, filter_notes, set_tree, set_all_notes.
  cbn [notes all_notes notes_file search_var tree selection preview_text].
  now rewrite reconcile_idempotent.
Qed.

(** X2.  A focus loss and a close of a window on screen change the store
    exactly as [refresh_note_list] alone does: the dictionary that
    [update_note_in_list] or [update_closed_note] writes first, with
    [is_open = False] in the case of a close, is always overwritten by the
    reconciliation that follows. *)
Theorem X2_focus_out_and_close_as_refresh : forall i a w,
  live_window i a = Some w ->
  all_notes (save_on_focus_out i a) = all_notes (refresh_note_list a) /\
  all_notes (on_close i a) = all_notes (refresh_note_list a).
Proof.
  intros i a w Hl. rewrite refresh_all_notes. split.
  - unfold save_on_focus_out. rewrite Hl. apply save_note_all_notes.
  - now apply on_close_as_refresh with w.
Qed.

(** X2 on a window holding text the store has not seen. *)
Lemma X2_focus_out_and_close_as_refresh_witness :
  all_notes (save_on_focus_out 0 two_stale_notes) =
    all_notes (refresh_note_list two_stale_notes) /\
  all_notes (on_close 0 two_stale_notes) =
    all_notes (refresh_note_list two_stale_notes).
Proof.
  apply (X2_focus_out_and_close_as_refresh 0 two_stale_notes
           (StickyNote.mk "20240101120000" "gamma" 60 70 200 200 "#FFFF99"
              0 0 0 0 0 0 true)).
  vm_compute. reflexivity.
Defined.

Lemma update_note_in_list_reconciled k b all :
  all_notes b = reconcile (notes b) all ->
  all_notes (update_note_in_list k b) = all_notes b.
Proof.
  intros Hb. rewrite update_note_in_list_all_notes.
  destruct (find (live_with_id k) (notes b)) as [w|] eqn:E; [|reflexivity].
  apply find_live_with_id in E. destruct E as (Hin & Hex & Hk).
  rewrite Hb, reconcile_absorb;
    [apply reconcile_idempotent| |now rewrite <- Hk].
  apply open_note_ids_spec. now exists w.
Qed.

Lemma create_new_note_notes_file d e a :
  notes_file (create_new_note d e a) = notes_file a.
Proof.
  unfold create_new_note. destruct d as [d|]; [|reflexivity].
  now destruct (existsb (has_id (StickyNote.note_id (window_for d e)))
                        (all_notes a)).
Qed.

Lemma change_color_saved i c a w :
  live_window i a = Some w -> Py.truthy c = true ->
  notes_file (change_color i (Some c) a) =
  Notes (all_notes (change_color i (Some c) a)).
Proof.
  intros Hl Hc. unfold change_color. rewrite Hl, Hc.
  set (a1 := set_notes (update_nth i (StickyNote.config_bg c) (notes a)) a).
  set (k := StickyNote.note_id w).
  rewrite update_note_in_list_notes_file, save_note_notes_file.
  rewrite (update_note_in_list_reconciled k (save_note k a1) (all_notes a1)).
  - now rewrite save_note_all_notes.
  - now rewrite save_note_all_notes, save_note_notes.
Qed.

(** X3.  Every action that saves leaves the file equal to the store: after
    a focus loss, a close or a colour change of a window on screen, after a
    confirmed deletion and after a colour change from the list, what
    [sticky_notes.json] holds is exactly [all_notes]. *)
Theorem X3_saving_actions_leave_file_equal_to_store : forall a act,
  saves a act = true ->
  notes_file (step a act) = Notes (all_notes (step a act)).
Proof.
  intros a act Hs. destruct act; simpl in Hs; try discriminate; simpl step.
  - destruct confirm; [|discriminate].
    unfold delete_selected_note.
    destruct (selection a) as [k|]; [|discriminate]. cbn [negb].
    rewrite refresh_notes_file, save_notes_file, refresh_all_notes.
    rewrite save_notes_notes, save_notes_all_notes.
    now rewrite reconcile_idempotent.
  - destruct chosen as [c|]; [|discriminate].
    unfold change_selected_note_color.
    destruct (selection a) as [k|]; [|discriminate].
    destruct (find_note k (all_notes a)); [|discriminate].
    rewrite Hs. cbn [negb].
    rewrite update_preview_notes_file, update_preview_all_notes.
    rewrite refresh_notes_file, save_notes_file, refresh_all_notes.
    rewrite save_notes_notes, save_notes_all_notes.
    now rewrite reconcile_idempotent.
  - unfold save_on_focus_out.
    destruct (live_window i a) as [w|]; [|discriminate].
    now rewrite save_note_notes_file, save_note_all_notes.
  - destruct chosen as [c|]; [|discriminate].
    destruct (live_window i a) as [w|] eqn:Hl; [|discriminate].
    now apply change_color_saved with w.
  - destruct (live_window i a) as [w|] eqn:Hl; [|discriminate].
    rewrite (on_close_notes_file i a w Hl).
    now rewrite (on_close_as_refresh i a w Hl).
Qed.

(** X3 on the close of a window holding text the store has not seen. *)
Lemma X3_saving_actions_leave_file_equal_to_store_witness :
  notes_file (step two_stale_notes (CloseWindow 0)) =
  Notes (all_notes (step two_stale_notes (CloseWindow 0))).
Proof.
  apply (X3_saving_actions_leave_file_equal_to_store two_stale_notes
           (CloseWindow 0)).
  vm_compute. reflexivity.
Defined.

(** X4.  No other action writes the file, short of leaving the program:
    making a note, opening one from the list, refreshing, searching,
    selecting, typing, dragging and resizing leave [sticky_notes.json] as
    it is, and so do a cancelled dialog, a button pressed without a
    selection and an event for a window that is gone.  In particular a new
    note is not on disk until some later action saves. *)
Theorem X4_other_actions_leave_the_file : forall a act,
  saves a act = false -> exits act = false ->
  notes_file (step a act) = notes_file a.
Proof.
  intros a act Hs He. destruct act; simpl in Hs; simpl in He;
    try discriminate; simpl step.
  - apply create_new_note_notes_file.
  - unfold select_row.
    destruct (existsb (fun r => String.eqb (row_id r) note_id) (tree a));
      [|reflexivity].
    now rewrite update_preview_notes_file.
  - unfold open_selected_note.
    destruct (selection a) as [k|]; [|reflexivity].
    destruct (existsb (live_with_id k) (notes a)); [reflexivity|].
    destruct (find_note k (all_notes a)); [|reflexivity].
    now rewrite create_new_note_notes_file.
  - unfold delete_selected_note.
    destruct (selection a) as [k|]; [|reflexivity].
    destruct confirm; [discriminate|reflexivity].
  - unfold change_selected_note_color.
    destruct (selection a) as [k|]; [|reflexivity].
    destruct (find_note k (all_notes a)); [|reflexivity].
    destruct chosen as [c|]; [|reflexivity]. now rewrite Hs.
  - reflexivity.
  - reflexivity.
  - unfold on_window. now destruct (live_window i a).
  - unfold on_window. now destruct (live_window i a).
  - unfold on_window. now destruct (live_window i a).
  - unfold on_window. now destruct (live_window i a).
  - unfold on_window. now destruct (live_window i a).
  - unfold save_on_focus_out.
    destruct (live_window i a); [discriminate|reflexivity].
  - unfold change_color. destruct (live_window i a); [|reflexivity].
    destruct chosen as [c|]; [|reflexivity]. now rewrite Hs.
  - unfold on_close. destruct (live_window i a); [discriminate|reflexivity].
Qed.

(** X4 on a new note made after a save. *)
Lemma X4_other_actions_leave_the_file_witness :
  notes_file (step (step two_stale_notes (FocusOut 0))
                   (NewNote (mkEnv "20240101120009" 1 2))) =
  notes_file (step two_stale_notes (FocusOut 0)).
Proof.
  apply (X4_other_actions_leave_the_file
           (step two_stale_notes (FocusOut 0))
           (NewNote (mkEnv "20240101120009" 1 2))); reflexivity.
Defined.

Lemma remove_first_not_in k all :
  NoDup (ids all) -> ~ In k (ids (remove_first k all)).
Proof.
  induction all as [|n rest IH]; simpl; intros Hnd; [tauto|].
  apply NoDup_cons_iff in Hnd. destruct Hnd as [Hn Hrest].
  destruct (has_id k n) eqn:E.
  - apply has_id_true in E. now rewrite <- E.
  - apply has_id_false in E. simpl. intros [H|H]; [congruence|].
    now apply IH.
Qed.

Lemma remove_first_length k all :
  In k (ids all) -> S (length (remove_first k all)) = length all.
Proof.
  induction all as [|n rest IH]; simpl; intros Hin; [destruct Hin|].
  destruct (has_id k n) eqn:E; [reflexivity|].
  apply has_id_false in E. simpl. f_equal. apply IH.
  destruct Hin; [congruence|assumption].
Qed.

Lemma length_ids all : length (ids all) = length all.
Proof. apply length_map. Qed.

(** X5.  A confirmed deletion of the selected row removes the first note
    with that id from the store and nothing else, destroys and forgets
    every window on screen with that id and keeps all other windows; when
    the ids of the store are distinct, no note and no row with that id is
    left.  A deletion that is not confirmed changes nothing. *)
Theorem X5_delete_selected_note : forall a k,
  selection a = Some k ->
  let a' := delete_selected_note true a in
  ids (all_notes a') = ids (remove_first k (all_notes a)) /\
  notes a' = filter (fun w => negb (live_with_id k w)) (notes a) /\
  ~ live_window_with_id k a' /\
  (In k (ids (all_notes a)) ->
   S (length (all_notes a')) = length (all_notes a)) /\
  (NoDup (ids (all_notes a)) ->
   ~ In k (ids (all_notes a')) /\ ~ In k (map row_id (tree a'))) /\
  delete_selected_note false a = a.
Proof.
  intros a k Hs a'.
  assert (ids (all_notes a') = ids (remove_first k (all_notes a))) as Hids.
  { unfold a', delete_selected_note. rewrite Hs. cbn [negb].
    now rewrite ids_refresh, ids_save_notes. }
  assert (notes a' = filter (fun w => negb (live_with_id k w)) (notes a))
    as Hws.
  { unfold a', delete_selected_note. now rewrite Hs. }
  split; [exact Hids|]. split; [exact Hws|]. split; [|split; [|split]].
  - intros [w [Hin [Hex Hk]]]. rewrite Hws in Hin.
    apply filter_In in Hin. destruct Hin as [_ Hl].
    unfold live_with_id in Hl. rewrite Hex, Hk, String.eqb_refl in Hl.
    discriminate.
  - intros Hin. rewrite <- (length_ids (all_notes a')), Hids, length_ids.
    now apply remove_first_length.
  - intros Hnd.
    assert (~ In k (ids (all_notes a'))) as Hno
      by (rewrite Hids; now apply remove_first_not_in).
    split; [exact Hno|]. intros Hrow. apply Hno.
    assert (synced a') as [Hsub _].
    { unfold a', delete_selected_note. rewrite Hs. apply synced_refresh. }
    now apply Hsub.
  - unfold delete_selected_note. now rewrite Hs.
Qed.

(** X5 on the second of two notes. *)
Lemma X5_delete_selected_note_witness :
  ids (all_notes (delete_selected_note true second_selected)) =
  ids (remove_first "20240101120005" (all_notes second_selected)).
Proof.
  apply (X5_delete_selected_note second_selected "20240101120005").
  vm_compute. reflexivity.
Defined.

(* ------------------------------------------------------------------ *)
(** ** Loading *)

Lemma window_for_note_id d e :
  StickyNote.note_id (window_for d e) =
  if Py.truthy (NoteData.id d) then NoteData.id d else now e.
Proof.
  unfold window_for, StickyNote.init.
  destruct (NoteData.x d), (NoteData.y d), (NoteData.width d),
    (NoteData.height d); reflexivity.
Qed.

Lemma window_for_exists d e : StickyNote.winfo_exists (window_for d e) = true.
Proof.
  unfold window_for, StickyNote.init.
  destruct (NoteData.x d), (NoteData.y d), (NoteData.width d),
    (NoteData.height d); reflexivity.
Qed.

Lemma truthy_true s : Py.truthy s = true <-> s <> "".
Proof. destruct s; simpl; split; congruence. Qed.

Lemma create_some_ids d e a :
  NoteData.id d <> "" -> In (NoteData.id d) (ids (all_notes a)) ->
  ids (all_notes (create_new_note (Some d) e a)) = ids (all_notes a).
Proof.
  intros Hd Hin. unfold create_new_note. rewrite ids_refresh.
  cbn [all_notes set_notes set_all_notes].
  rewrite window_for_note_id, (proj2 (truthy_true _) Hd).
  rewrite (proj2 (existsb_has_id _ _) Hin).
  apply replace_first_ids.
  now rewrite get_note_data_id, window_for_note_id, (proj2 (truthy_true _) Hd).
Qed.

Lemma reopen_all_ids envs l : forall k a,
  (forall d, In d l ->
             NoteData.id d <> "" /\ In (NoteData.id d) (ids (all_notes a))) ->
  ids (all_notes (reopen_all envs k l a)) = ids (all_notes a).
Proof.
  induction l as [|d l IH]; simpl; intros k a H; [reflexivity|].
  destruct (H d (or_introl eq_refl)) as [Hd Hin].
  rewrite IH; [now apply create_some_ids|].
  intros d' Hd'. rewrite create_some_ids by assumption. apply H. now right.
Qed.

Lemma reopen_all_notes_file envs l : forall k a,
  notes_file (reopen_all envs k l a) = notes_file a.
Proof.
  induction l as [|d l IH]; simpl; intros k a; [reflexivity|].
  now rewrite IH, create_new_note_notes_file.
Qed.

(** X6.  Starting the program never writes the file.  With no file, or
    with a file that cannot be read, the store and the list of windows are
    empty.  With a readable file whose notes all have a non-empty id, the
    store holds after the start the ids of the file, in the order of the
    file: no note is lost and none is added. *)
Theorem X6_load_keeps_the_file_and_the_ids : forall f envs,
  notes_file (launch f envs) = f /\
  (match f with
   | Notes l =>
       (forall n, In n l -> NoteData.id n <> "") ->
       ids (all_notes (launch f envs)) = ids l
   | _ => all_notes (launch f envs) = [] /\ notes (launch f envs) = []
   end).
Proof.
  intros f envs. unfold launch, load_notes. cbn [notes_file init_app].
  destruct f as [| |l]; [split; auto|split; auto|].
  split; [now rewrite reopen_all_notes_file|].
  intros Hl. rewrite reopen_all_ids; [now rewrite ids_refresh|].
  intros d Hd. apply filter_In in Hd. destruct Hd as [Hd _].
  assert (In (NoteData.id d) (ids l)) as Hin.
  { pose proof (ids_refresh (set_all_notes l (init_app (Notes l)))) as Hr.
    cbn [all_notes set_all_notes] in Hr. rewrite <- Hr. now apply in_map. }
  split; [|now rewrite ids_refresh].
  apply in_map_iff in Hin. destruct Hin as [n [<- Hn]]. now apply Hl.
Qed.

(** X6 on a file of three notes. *)
Lemma X6_load_keeps_the_file_and_the_ids_witness :
  ids (all_notes (launch (Notes three_notes_file) (always noon))) =
  ids three_notes_file.
Proof.
  apply (proj2 (X6_load_keeps_the_file_and_the_ids (Notes three_notes_file)
                  (always noon))).
  intros n Hn. simpl in Hn.
  destruct Hn as [<-|[<-|[<-|[]]]]; discriminate.
Defined.

Lemma window_for_set_is_open b n e :
  window_for (NoteData.set_is_open b n) e = window_for n e.
Proof. reflexivity. Qed.

Lemma filter_was_open_closed l :
  filter NoteData.get_was_open (map (NoteData.set_is_open false) l) =
  map (NoteData.set_is_open false) (filter NoteData.get_was_open l).
Proof.
  induction l as [|n l IH]; simpl; [reflexivity|].
  change (NoteData.get_was_open (NoteData.set_is_open false n))
    with (NoteData.get_was_open n).
  destruct (NoteData.get_was_open n); simpl; now rewrite IH.
Qed.

Lemma windows_for_length envs l : forall k,
  length (windows_for envs k l) = length l.
Proof.
  induction l as [|d l IH]; simpl; intros k; [|rewrite IH]; reflexivity.
Qed.

Lemma windows_for_in envs l w : forall k,
  In w (windows_for envs k l) -> exists d e, In d l /\ w = window_for d e.
Proof.
  induction l as [|d l IH]; simpl; intros k; [tauto|].
  intros [<-|H].
  - exists d, (envs k). auto.
  - destruct (IH _ H) as [d' [e [H1 H2]]]. exists d', e. auto.
Qed.

Lemma in_windows_for envs l d : forall k,
  In d l -> exists e, In (window_for d e) (windows_for envs k l).
Proof.
  induction l as [|d0 l IH]; simpl; intros k; [tauto|].
  intros [->|H].
  - exists (envs k). now left.
  - destruct (IH (S k) H) as [e He]. exists e. now right.
Qed.

(** What the window built for a dictionary shows. *)
Lemma window_for_restores d e :
  let w := window_for d e in
  StickyNote.text_area w = NoteData.get_text d /\
  StickyNote.bg w = NoteData.get_color d /\
  (forall a b, NoteData.width d = Some a -> NoteData.height d = Some b ->
               StickyNote.winfo_width w = a /\ StickyNote.winfo_height w = b) /\
  (NoteData.width d = None \/ NoteData.height d = None ->
   StickyNote.winfo_width w = 200%Z /\ StickyNote.winfo_height w = 200%Z) /\
  (forall a b, NoteData.x d = Some a -> NoteData.y d = Some b ->
               StickyNote.winfo_x w = a /\ StickyNote.winfo_y w = b) /\
  (NoteData.x d = None \/ NoteData.y d = None ->
   StickyNote.winfo_x w = random_x e /\ StickyNote.winfo_y w = random_y e).
Proof.
  unfold window_for, StickyNote.init.
  destruct (NoteData.x d), (NoteData.y d), (NoteData.width d),
    (NoteData.height d); cbn;
    repeat match goal with
           | |- _ /\ _ => split
           | |- forall _, _ => intro
           | H : Some _ = Some _ |- _ => inversion H; clear H; subst
           | H : _ \/ _ |- _ => destruct H
           end;
    try reflexivity; try discriminate.
Qed.

(** X7.  At the start, one window is opened for each note of the file whose
    [was_open] is true and for no other note, whatever [is_open] says.
    Each of these windows is on screen and shows the saved text and colour
    (empty and pale yellow when the key is missing), at the saved size when
    both [width] and [height] are in the file and at 200 by 200 otherwise,
    at the saved place when both [x] and [y] are in the file and at a random
    place otherwise. *)
Theorem X7_windows_opened_at_start : forall l envs,
  let ws := notes (launch (Notes l) envs) in
  length ws = length (filter NoteData.get_was_open l) /\
  (forall n, In n l -> NoteData.get_was_open n = true ->
             exists e, In (window_for n e) ws) /\
  (forall w, In w ws ->
     StickyNote.winfo_exists w = true /\
     exists n e,
       In n l /\ NoteData.get_was_open n = true /\ w = window_for n e /\
       StickyNote.text_area w = NoteData.get_text n /\
       StickyNote.bg w = NoteData.get_color n /\
       (forall a b, NoteData.width n = Some a -> NoteData.height n = Some b ->
          StickyNote.winfo_width w = a /\ StickyNote.winfo_height w = b) /\
       (NoteData.width n = None \/ NoteData.height n = None ->
          StickyNote.winfo_width w = 200%Z /\
          StickyNote.winfo_height w = 200%Z) /\
       (forall a b, NoteData.x n = Some a -> NoteData.y n = Some b ->
          StickyNote.winfo_x w = a /\ StickyNote.winfo_y w = b) /\
       (NoteData.x n = None \/ NoteData.y n = None ->
          StickyNote.winfo_x w = random_x e /\
          StickyNote.winfo_y w = random_y e)).
Proof.
  intros l envs ws. unfold ws. rewrite launch_notes, filter_was_open_closed.
  split; [|split].
  - now rewrite windows_for_length, length_map.
  - intros n Hn Hw.
    destruct (in_windows_for envs
                (map (NoteData.set_is_open false)
                     (filter NoteData.get_was_open l))
                (NoteData.set_is_open false n) 0) as [e He].
    { apply in_map. apply filter_In. tauto. }
    exists e. now rewrite window_for_set_is_open in He.
  - intros w Hw. apply windows_for_in in Hw.
    destruct Hw as [d [e [Hd ->]]].
    apply in_map_iff in Hd. destruct Hd as [n [<- Hn]].
    apply filter_In in Hn. destruct Hn as [Hn Hwo].
    rewrite window_for_set_is_open.
    split; [apply window_for_exists|].
    exists n, e. split; [assumption|]. split; [assumption|].
    split; [reflexivity|]. apply window_for_restores.
Qed.

(** X7 on a file of three notes, the third without place, size and
    colour. *)
Lemma X7_windows_opened_at_start_witness :
  exists e,
    In (window_for
          (NoteData.mk "20230707121212" (Some "call home") None None
             None None None None (Some true)) e)
       (notes (launch (Notes three_notes_file) (always noon))).
Proof.
  apply (proj1 (proj2 (X7_windows_opened_at_start three_notes_file
                         (always noon)))).
  - right. right. left. reflexivity.
  - reflexivity.
Defined.

(* ------------------------------------------------------------------ *)
(** ** Saving a window and opening it again *)

Lemma rstrip_app_space s c :
  Py.is_space c = true ->
  Py.rstrip (s ++ String c EmptyString) = Py.rstrip s.
Proof.
  intros Hc. induction s as [|d s IH]; simpl; [now rewrite Hc|].
  now rewrite IH.
Qed.

Lemma rstrip_idempotent s : Py.rstrip (Py.rstrip s) = Py.rstrip s.
Proof.
  induction s as [|d s IH]; simpl; [reflexivity|].
  destruct (Py.rstrip s) as [|e r] eqn:E.
  - destruct (Py.is_space d) eqn:Ed; simpl; [reflexivity|now rewrite Ed].
  - simpl. simpl in IH. now rewrite IH.
Qed.

Lemma lstrip_headed s : headed (Py.lstrip s).
Proof.
  induction s as [|c s IH]; simpl; [exact I|].
  destruct (Py.is_space c) eqn:E; [assumption|exact E].
Qed.

Lemma rstrip_headed s : headed s -> headed (Py.rstrip s).
Proof.
  destruct s as [|c s]; simpl; intros H; [exact I|].
  destruct (Py.rstrip s); [now rewrite H|exact H].
Qed.

Lemma lstrip_of_headed s : headed s -> Py.lstrip s = s.
Proof. destruct s as [|c s]; simpl; intros H; [|rewrite H]; reflexivity. Qed.

Lemma strip_headed s : headed (Py.strip s).
Proof. apply rstrip_headed, lstrip_headed. Qed.

(** The text [get_note_data] reads is not changed by being put back in a
    text widget and read again. *)
Lemma strip_line_stable s :
  Py.strip (Py.strip s ++ String Py.LF EmptyString) = Py.strip s.
Proof.
  pose proof (strip_headed s) as Hh.
  destruct (Py.strip s) as [|c t] eqn:E; [reflexivity|].
  unfold Py.strip at 1.
  rewrite lstrip_of_headed by exact Hh.
  rewrite rstrip_app_space by reflexivity.
  rewrite <- E. apply rstrip_idempotent.
Qed.

Lemma window_round_trip w e :
  StickyNote.note_id w <> "" ->
  StickyNote.get_note_data (window_for (StickyNote.get_note_data w) e) =
  StickyNote.get_note_data w.
Proof.
  intros Hid. destruct w as [k t px py wd ht c r1 r2 r3 r4 d1 d2 ex].
  cbn [StickyNote.note_id] in Hid.
  destruct k as [|k0 k]; [congruence|].
  unfold window_for, StickyNote.init, StickyNote.get_note_data.
  cbn -[Py.strip append]. f_equal. f_equal. apply strip_line_stable.
Qed.

(** X8.  Saving a window and opening it again loses nothing: the
    dictionary [get_note_data] reads from a window with a non-empty id,
    given to [create_new_note], builds a window from which [get_note_data]
    reads the same dictionary again (same id, text, place, size, colour and
    flags). *)
Theorem X8_save_then_open_round_trip : forall w e,
  StickyNote.note_id w <> "" ->
  StickyNote.get_note_data (window_for (StickyNote.get_note_data w) e) =
  StickyNote.get_note_data w.
Proof. intros w e Hid. now apply window_round_trip. Qed.

(** X8 on a window with text typed in, moved and resized. *)
Lemma X8_save_then_open_round_trip_witness :
  StickyNote.get_note_data
    (window_for (StickyNote.get_note_data busy_window) noon) =
  StickyNote.get_note_data busy_window.
Proof.
  apply (X8_save_then_open_round_trip busy_window noon). discriminate.
Defined.

(* ------------------------------------------------------------------ *)
(** ** The columns of a row *)

Lemma string_length_append s t :
  String.length (s ++ t) = String.length s + String.length t.
Proof. induction s as [|c s IH]; simpl; [|rewrite IH]; reflexivity. Qed.

Lemma string_length_prefix n : forall s,
  String.length (substring 0 n s) = Nat.min n (String.length s).
Proof.
  induction n as [|n IH]; intros [|c s]; simpl; try reflexivity.
  now rewrite IH.
Qed.

Lemma replace_char_length c s :
  String.length (Py.replace_char c s) = String.length s.
Proof. induction s as [|d s IH]; simpl; [|rewrite IH]; reflexivity. Qed.

Lemma has_char_append c s t :
  has_char c (s ++ t) = has_char c s || has_char c t.
Proof.
  induction s as [|d s IH]; simpl; [reflexivity|].
  now rewrite IH, orb_assoc.
Qed.

Lemma has_char_prefix c n : forall s,
  has_char c s = false -> has_char c (substring 0 n s) = false.
Proof.
  induction n as [|n IH]; intros [|d s]; simpl; try reflexivity.
  intros H. apply orb_false_iff in H. destruct H as [H1 H2].
  now rewrite H1, IH.
Qed.

Lemma replace_char_removes c s :
  c <> " "%char -> has_char c (Py.replace_char c s) = false.
Proof.
  intros Hc. induction s as [|d s IH]; simpl; [reflexivity|].
  rewrite IH, orb_false_r.
  destruct (Ascii.eqb d c) eqn:E; [|exact E].
  apply Ascii.eqb_neq. congruence.
Qed.

Lemma replace_char_keeps_out c c' s :
  c <> " "%char ->
  has_char c s = false -> has_char c (Py.replace_char c' s) = false.
Proof.
  intros Hc. induction s as [|d s IH]; simpl; [reflexivity|].
  intros H. apply orb_false_iff in H. destruct H as [H1 H2].
  rewrite IH, orb_false_r by assumption.
  destruct (Ascii.eqb d c'); [|exact H1].
  apply Ascii.eqb_neq. congruence.
Qed.

Lemma truthy_length s : Py.truthy s = false <-> String.length s = 0.
Proof. destruct s; simpl; split; congruence. Qed.

(** X10.  The preview column of a row.  It is the placeholder exactly when
    the text of the note is empty or white space only.  Otherwise it is one
    line, without line feed or carriage return, of at most 83 characters:
    the stripped text with line breaks turned into spaces when that has at
    most 80 characters, and its first 80 characters followed by three dots
    when it is longer. *)
Theorem X10_preview_column : forall n,
  let text := Py.replace_char Py.CR
                (Py.replace_char Py.LF (Py.strip (NoteData.get_text n))) in
  (preview_cell n = NoContent <-> Py.strip (NoteData.get_text n) = "") /\
  (forall p, preview_cell n = PreviewText p ->
     String.length p <= 83 /\
     has_char Py.LF p = false /\ has_char Py.CR p = false /\
     (String.length text <= 80 -> p = text) /\
     (80 < String.length text ->
      p = substring 0 80 text ++ "..." /\ String.length p = 83)).
Proof.
  intros n text.
  assert (String.length text = String.length (Py.strip (NoteData.get_text n)))
    as Hlen by (unfold text; now rewrite !replace_char_length).
  assert (has_char Py.LF text = false) as HLF.
  { unfold text. apply replace_char_keeps_out; [discriminate|].
    apply replace_char_removes. discriminate. }
  assert (has_char Py.CR text = false) as HCR.
  { unfold text. apply replace_char_removes. discriminate. }
  unfold preview_cell. fold text.
  destruct (80 <? String.length text)%nat eqn:E.
  - apply Nat.ltb_lt in E.
    assert (String.length (substring 0 80 text ++ "...") = 83) as H83.
    { rewrite string_length_append, string_length_prefix.
      rewrite Nat.min_l by lia. reflexivity. }
    destruct (Py.truthy (substring 0 80 text ++ "...")) eqn:Et.
    + split.
      * split; [discriminate|]. intros H0. rewrite H0 in Hlen.
        simpl in Hlen. lia.
      * intros p Hp. inversion Hp; subst p. clear Hp.
        split; [lia|]. rewrite !has_char_append, !has_char_prefix by assumption.
        repeat split; try reflexivity; try lia.
    + apply truthy_length in Et. lia.
  - apply Nat.ltb_ge in E.
    destruct (Py.truthy text) eqn:Et.
    + split.
      * split; [discriminate|]. intros H0. rewrite H0 in Hlen.
        simpl in Hlen.
        assert (Py.truthy text = false) by (apply truthy_length; lia).
        congruence.
      * intros p Hp. inversion Hp; subst p. clear Hp.
        repeat split; try assumption; try lia.
    + split.
      * split; [intros _|reflexivity]. apply truthy_length in Et.
        rewrite Hlen in Et.
        now destruct (Py.strip (NoteData.get_text n)).
      * intros p Hp. discriminate.
Qed.

(** X10 on a note of ninety letters on two lines. *)
Lemma X10_preview_column_witness :
  String.length
    (substring 0 80
       (Py.replace_char Py.CR
          (Py.replace_char Py.LF (Py.strip (NoteData.get_text long_note))))
     ++ "...") <= 83.
Proof.
  refine (proj1 (proj2 (X10_preview_column long_note) _ _)).
  vm_compute. reflexivity.
Defined.

(* ------------------------------------------------------------------ *)
(** ** The tree follows the store *)

Lemma viewed_filter_notes a : viewed (filter_notes a).
Proof. split; [reflexivity|discriminate]. Qed.

Lemma viewed_frame a b :
  tree b = tree a -> selection b = selection a ->
  search_var b = search_var a -> all_notes b = all_notes a ->
  viewed a -> viewed b.
Proof.
  intros Ht Hs Hv Hn [H1 H2]. unfold viewed. now rewrite Ht, Hs, Hv, Hn.
Qed.

Lemma viewed_refresh a : viewed (refresh_note_list a).
Proof. apply viewed_filter_notes. Qed.

Lemma viewed_update_preview a : viewed a -> viewed (update_preview a).
Proof.
  apply viewed_frame; unfold update_preview;
    destruct (selection a) as [k|] eqn:E;
    try destruct (find_note k (all_notes a)); simpl; congruence.
Qed.

Lemma viewed_update_note_in_list k a :
  viewed a -> viewed (update_note_in_list k a).
Proof.
  intros H. unfold update_note_in_list.
  destruct (find (live_with_id k) (notes a)); [|assumption].
  apply viewed_update_preview, viewed_refresh.
Qed.

Lemma viewed_save_note k a : viewed (save_note k a).
Proof.
  apply viewed_update_note_in_list.
  apply (viewed_frame (refresh_note_list a)); try reflexivity.
  apply viewed_refresh.
Qed.

Lemma viewed_create_new_note d e a : viewed (create_new_note d e a).
Proof. unfold create_new_note. destruct d; apply viewed_refresh. Qed.

Lemma viewed_reopen_all envs l : forall k a,
  viewed a -> viewed (reopen_all envs k l a).
Proof.
  induction l as [|d l IH]; simpl; intros k a H; [assumption|].
  apply IH, viewed_create_new_note.
Qed.

Lemma viewed_launch file envs : viewed (launch file envs).
Proof.
  assert (viewed (init_app file)) as H0
    by (split; [reflexivity|discriminate]).
  unfold launch, load_notes. simpl notes_file.
  destruct file as [| |l]; try exact H0.
  apply viewed_reopen_all, viewed_refresh.
Qed.

Lemma viewed_step a act : viewed a -> viewed (step a act).
Proof.
  intros H. destruct act; simpl step.
  - apply viewed_create_new_note.
  - unfold select_row.
    destruct (existsb (fun r => String.eqb (row_id r) note_id) (tree a))
      eqn:E; [|assumption].
    apply viewed_update_preview. destruct H as [H1 H2].
    split; simpl; [assumption|].
    intros k Hk. inversion Hk; subst k.
    apply existsb_exists in E. destruct E as [r [Hr Heq]].
    apply String.eqb_eq in Heq. rewrite <- Heq. now apply in_map.
  - unfold open_selected_note.
    destruct (selection a) as [k|]; [|assumption].
    destruct (existsb (live_with_id k) (notes a)); [assumption|].
    destruct (find_note k (all_notes a)); [|assumption].
    apply viewed_create_new_note.
  - unfold delete_selected_note.
    destruct (selection a) as [k|]; [|assumption].
    destruct (negb confirm); [assumption|apply viewed_refresh].
  - unfold change_selected_note_color.
    destruct (selection a) as [k|]; [|assumption].
    destruct (find_note k (all_notes a)); [|assumption].
    destruct chosen as [c|]; [|assumption].
    destruct (negb (Py.truthy c)); [assumption|].
    apply viewed_update_preview, viewed_refresh.
  - apply viewed_refresh.
  - apply viewed_filter_notes.
  - unfold on_window. now destruct (live_window i a).
  - unfold on_window. now destruct (live_window i a).
  - unfold on_window. now destruct (live_window i a).
  - unfold on_window. now destruct (live_window i a).
  - unfold on_window. now destruct (live_window i a).
  - unfold save_on_focus_out.
    destruct (live_window i a); [apply viewed_save_note|assumption].
  - unfold change_color. destruct (live_window i a) as [w|]; [|assumption].
    destruct chosen as [c|]; [|assumption].
    destruct (Py.truthy c); [|assumption].
    apply viewed_update_note_in_list, viewed_save_note.
  - unfold on_close. destruct (live_window i a) as [w|]; [|assumption].
    apply (viewed_refresh
             (set_all_notes
                (replace_first (StickyNote.note_id w) (closed_note_data w)
                   (all_notes (save_note (StickyNote.note_id w) a)))
                (save_note (StickyNote.note_id w) a))).
  - apply viewed_launch.
Qed.

(** X12.  Whatever the file at the start and whatever the user does, the
    tree always shows the store: its rows are the rows of the notes of
    [all_notes] that match the search string, in the order of the store,
    and a selected row is always one of them, so the selected id always
    names a note of the store.  (What is typed in a window shows in the
    tree only once it has reached the store.) *)
Theorem X12_tree_always_shows_the_store : forall file envs acts,
  let a := run (launch file envs) acts in
  tree a = map make_row
             (filter (note_matches (Py.lower (search_var a))) (all_notes a)) /\
  (forall k, selection a = Some k ->
     In k (map row_id (tree a)) /\
     exists n, find_note k (all_notes a) = Some n).
Proof.
  intros file envs acts a.
  assert (forall l b, viewed b -> viewed (run b l)) as Hrun.
  { unfold run. induction l as [|act l IH]; simpl; intros b H; [assumption|].
    now apply IH, viewed_step. }
  destruct (Hrun acts (launch file envs) (viewed_launch file envs))
    as [H1 H2].
  fold a in H1, H2. split; [now rewrite H1, tree_rows_filter|].
  intros k Hk. split; [now apply H2|].
  assert (In k (ids (all_notes a))) as Hin.
  { apply (row_ids_tree_rows (Py.lower (search_var a))).
    rewrite <- H1. now apply H2. }
  destruct (find_note_present k _ Hin) as [n [Hn _]]. now exists n.
Qed.

(** X12 after a search, a selection and a close. *)
Lemma X12_tree_always_shows_the_store_witness :
  exists n,
    find_note "20240101120005"
      (all_notes (run (launch Missing (always noon))
                      [NewNote noon; NewNote (mkEnv "20240101120005" 5 6);
                       SetSearch "0005"; SelectRow "20240101120005"])) =
    Some n.
Proof.
  apply (proj2 (X12_tree_always_shows_the_store Missing (always noon)
                  [NewNote noon; NewNote (mkEnv "20240101120005" 5 6);
                   SetSearch "0005"; SelectRow "20240101120005"])
               "20240101120005").
  vm_compute. reflexivity.
Defined.

Lemma status_open_iff n :
  status_of n = StatusOpen <-> NoteData.is_open n = Some true.
Proof.
  unfold status_of, NoteData.get_is_open.
  destruct (NoteData.is_open n) as [[|]|]; split; congruence.
Qed.

(** X13.  When the ids of the store are distinct, right after
    [refresh_note_list] the status column tells the truth: a row says
    "open" exactly when a window with the id of the row is on screen. *)
Theorem X13_status_column_after_refresh : forall a r,
  NoDup (ids (all_notes a)) ->
  In r (tree (refresh_note_list a)) ->
  (row_status r = StatusOpen <->
   live_window_with_id (row_id r) (refresh_note_list a)).
Proof.
  intros a r Hnd Hr.
  change (tree (refresh_note_list a))
    with (tree_rows (Py.lower (search_var a))
            (all_notes (refresh_note_list a))) in Hr.
  rewrite tree_rows_filter in Hr. apply in_map_iff in Hr.
  destruct Hr as [n [<- Hn]]. apply filter_In in Hn. destruct Hn as [Hn _].
  cbn [row_status row_id make_row]. rewrite status_open_iff.
  now apply refresh_is_open_iff.
Qed.

(** X13 on a note whose window was closed. *)
Lemma X13_status_column_after_refresh_witness :
  row_status (make_row
    (NoteData.mk "20240101120000" (Some "hello") (Some 60%Z) (Some 70%Z)
       (Some 200%Z) (Some 200%Z) (Some "#FFFF99") (Some false)
       (Some true))) = StatusOpen <->
  live_window_with_id "20240101120000"
    (refresh_note_list (run (launch Missing (always noon)) hello_run)).
Proof.
  apply (X13_status_column_after_refresh
           (run (launch Missing (always noon)) hello_run)
           (make_row
              (NoteData.mk "20240101120000" (Some "hello") (Some 60%Z)
                 (Some 70%Z) (Some 200%Z) (Some 200%Z) (Some "#FFFF99")
                 (Some false) (Some true)))).
  - vm_compute. repeat constructor. intros [].
  - vm_compute. left. reflexivity.
Defined.

(** X14.  The ids of the store stay distinct along every run that starts
    with no file, an unreadable file or a file with distinct ids, as long
    as the clock never gives the new-note button an id the store already
    has: reopening, closing, recolouring, deleting, saving, leaving and
    starting again never make two notes share an id. *)
Theorem X14_ids_stay_distinct : forall file envs acts,
  file_ids_distinct file ->
  fresh_clock (launch file envs) acts ->
  NoDup (ids (all_notes (run (launch file envs) acts))).
Proof.
  intros file envs acts Hf Hc. apply NoDup_run; [|assumption].
  destruct file as [| |l]; [constructor|constructor|].
  now apply NoDup_launch.
Qed.

(** X14 on two notes made five seconds apart. *)
Lemma X14_ids_stay_distinct_witness :
  NoDup (ids (all_notes (run (launch Missing (always noon)) busy_run))).
Proof.
  apply (X14_ids_stay_distinct Missing (always noon) busy_run).
  - exact I.
  - vm_compute. repeat split; try discriminate.
    + intros e He. inversion He; subst e. intros [].
    + intros e He. inversion He; subst e. intros [H|[]]. discriminate.
Defined.

(* ------------------------------------------------------------------ *)
(** ** What the reconciliation leaves in a note *)

Lemma pull_held k ws0 all w :
  In w ws0 -> held k ws0 all -> held k ws0 (pull_window all w).
Proof.
  intros Hw (w0 & Hin & Hex & Hk & Hf).
  destruct (StickyNote.winfo_exists w) eqn:Ex;
    [|rewrite pull_window_dead by assumption; now exists w0].
  rewrite pull_window_live by assumption.
  destruct (String.eqb_spec (StickyNote.note_id w) k) as [E|E].
  - exists w. repeat split; try assumption. rewrite E.
    apply find_note_replace_same; [|now rewrite get_note_data_id].
    now apply find_note_some_ids with (StickyNote.get_note_data w0).
  - exists w0. repeat split; try assumption.
    now rewrite find_note_replace_other.
Qed.

Lemma fold_held k ws0 ws : forall all,
  incl ws ws0 -> held k ws0 all -> held k ws0 (fold_left pull_window ws all).
Proof.
  induction ws as [|w ws IH]; cbn [fold_left]; intros all Hi H; [assumption|].
  apply IH; [intros z Hz; apply Hi; now right|].
  apply pull_held; [apply Hi; now left|assumption].
Qed.

Lemma fold_live_held k ws0 ws : forall all,
  incl ws ws0 -> In k (ids all) -> In k (open_note_ids ws) ->
  held k ws0 (fold_left pull_window ws all).
Proof.
  induction ws as [|w ws IH]; cbn [fold_left]; intros all Hi Hin Hop;
    [destruct Hop|].
  assert (incl ws ws0) as Hi' by (intros z Hz; apply Hi; now right).
  unfold open_note_ids in Hop. simpl in Hop.
  destruct (StickyNote.winfo_exists w) eqn:Ex.
  - simpl in Hop. destruct Hop as [Hk|Hop].
    + apply fold_held; [assumption|].
      rewrite pull_window_live by assumption.
      exists w. repeat split; try assumption; [apply Hi; now left|].
      rewrite Hk. apply find_note_replace_same; [assumption|].
      now rewrite get_note_data_id.
    + apply IH; try assumption. now rewrite pull_window_ids.
  - apply IH; try assumption. now rewrite pull_window_ids.
Qed.

Lemma find_note_fold_pull_other k ws : forall all,
  ~ In k (open_note_ids ws) ->
  find_note k (fold_left pull_window ws all) = find_note k all.
Proof.
  induction ws as [|w ws IH]; cbn [fold_left]; intros all Hno; [reflexivity|].
  unfold open_note_ids in Hno. simpl in Hno.
  destruct (StickyNote.winfo_exists w) eqn:Ex.
  - simpl in Hno. rewrite IH by tauto.
    rewrite pull_window_live by assumption.
    apply find_note_replace_other; [tauto|apply get_note_data_id].
  - rewrite IH by assumption. now rewrite pull_window_dead.
Qed.

Lemma find_note_mark_closed_out k l all :
  ~ In k l ->
  find_note k (mark_closed l all) =
  option_map (NoteData.set_is_open false) (find_note k all).
Proof.
  intros Hno. unfold find_note, mark_closed.
  induction all as [|n rest IH]; simpl; [reflexivity|].
  destruct (has_id k n) eqn:E.
  - assert (mem_id (NoteData.id n) l = false) as ->.
    { apply has_id_true in E. rewrite E.
      destruct (mem_id k l) eqn:M; [|reflexivity].
      apply mem_id_true in M. tauto. }
    change (has_id k (NoteData.set_is_open false n)) with (has_id k n).
    now rewrite E.
  - assert (has_id k (if mem_id (NoteData.id n) l then n
                      else NoteData.set_is_open false n) = false) as ->
      by (now destruct (mem_id (NoteData.id n) l)).
    apply IH.
Qed.

Lemma reconcile_first_note k ws all n0 :
  find_note k all = Some n0 ->
  (In k (open_note_ids ws) /\ held k ws (reconcile ws all)) \/
  (~ In k (open_note_ids ws) /\
   find_note k (reconcile ws all) = Some (NoteData.set_is_open false n0)).
Proof.
  intros Hf. unfold reconcile.
  destruct (in_dec string_dec k (open_note_ids ws)) as [Hin|Hno].
  - left. split; [assumption|].
    destruct (fold_live_held k ws ws all (incl_refl _)
                (find_note_some_ids k all n0 Hf) Hin)
      as (w & H1 & H2 & H3 & H4).
    exists w. repeat split; try assumption.
    now rewrite find_note_mark_closed_in.
  - right. split; [assumption|].
    rewrite find_note_mark_closed_out by assumption.
    now rewrite find_note_fold_pull_other, Hf.
Qed.

(** X15.  What [refresh_note_list] does to a note.  Take the first note of
    the store with a given id.  If a window with that id is on screen, the
    note becomes exactly what [get_note_data] reads from such a window.
    If none is, the note keeps its text, place, size, colour and
    [was_open] and only gets [is_open = False].  In both cases the id
    stays. *)
Theorem X15_refresh_on_one_note : forall a k n0,
  find_note k (all_notes a) = Some n0 ->
  let a' := refresh_note_list a in
  (live_window_with_id k a /\
   exists w, In w (notes a) /\ StickyNote.winfo_exists w = true /\
             StickyNote.note_id w = k /\
             find_note k (all_notes a') =
               Some (StickyNote.get_note_data w)) \/
  (~ live_window_with_id k a /\
   find_note k (all_notes a') = Some (NoteData.set_is_open false n0)).
Proof.
  intros a k n0 Hf a'. unfold a'. rewrite refresh_all_notes.
  unfold live_window_with_id. rewrite <- open_note_ids_spec.
  destruct (reconcile_first_note k (notes a) (all_notes a) n0 Hf)
    as [[H1 H2]|[H1 H2]]; [left|right]; auto.
Qed.

(** X15 on a closed note. *)
Lemma X15_refresh_on_one_note_witness :
  (live_window_with_id "20240101120000" closed_selected /\
   exists w, In w (notes closed_selected) /\
             StickyNote.winfo_exists w = true /\
             StickyNote.note_id w = "20240101120000" /\
             find_note "20240101120000"
               (all_notes (refresh_note_list closed_selected)) =
               Some (StickyNote.get_note_data w)) \/
  (~ live_window_with_id "20240101120000" closed_selected /\
   find_note "20240101120000"
     (all_notes (refresh_note_list closed_selected)) =
   Some (NoteData.set_is_open false
           (NoteData.mk "20240101120000" (Some "alpha") (Some 60%Z)
              (Some 70%Z) (Some 200%Z) (Some 200%Z) (Some "#FFFF99")
              (Some false) (Some true)))).
Proof.
  apply (X15_refresh_on_one_note closed_selected "20240101120000").
  vm_compute. reflexivity.
Defined.

(* ------------------------------------------------------------------ *)
(** ** The buttons of the list *)

Lemma find_note_update_first_same k f all n :
  (forall m, NoteData.id (f m) = NoteData.id m) ->
  find_note k all = Some n ->
  find_note k (update_first k f all) = Some (f n).
Proof.
  intros Hf. unfold find_note.
  induction all as [|m rest IH]; simpl; [discriminate|].
  destruct (has_id k m) eqn:E; simpl.
  - intros H. inversion H; subst m.
    assert (has_id k (f n) = true) as ->
      by (apply has_id_true; rewrite Hf; now apply has_id_true).
    reflexivity.
  - rewrite E. apply IH.
Qed.

(** X16.  A colour chosen for the selected row reaches the note and every
    window of it: afterwards the first note with the selected id has the
    chosen colour in the store, every window on screen with that id has it
    as background, windows of other notes are the windows they were, the
    ids of the store are unchanged, the selection is dropped and the
    preview is cleared.  A cancelled dialog changes nothing. *)
Theorem X16_colour_from_the_list : forall a k n0 c,
  selection a = Some k ->
  find_note k (all_notes a) = Some n0 ->
  c <> "" ->
  let a' := change_selected_note_color (Some c) a in
  (exists n, find_note k (all_notes a') = Some n /\
             NoteData.color n = Some c) /\
  (forall w, In w (notes a') -> StickyNote.winfo_exists w = true ->
             StickyNote.note_id w = k -> StickyNote.bg w = c) /\
  (forall w, In w (notes a') -> StickyNote.note_id w <> k ->
             In w (notes a)) /\
  ids (all_notes a') = ids (all_notes a) /\
  selection a' = None /\
  preview_text a' = mkPreview "" (Some "white") /\
  change_selected_note_color None a = a /\
  change_selected_note_color (Some "") a = a.
Proof.
  intros a k n0 c Hs Hf Hc a'.
  pose proof (proj2 (truthy_true c) Hc) as Ht.
  set (ws' := map (fun w => if live_with_id k w
                            then StickyNote.config_bg c w else w) (notes a)).
  set (all' := update_first k (NoteData.set_color c) (all_notes a)).
  assert (a' = update_preview
                 (refresh_note_list
                    (save_notes (set_notes ws' (set_all_notes all' a)))))
    as Ha'.
  { unfold a', change_selected_note_color. now rewrite Hs, Hf, Ht. }
  assert (notes a' = ws') as Hnotes
    by (rewrite Ha', update_preview_notes; reflexivity).
  assert (all_notes a' = reconcile ws' all') as Hall.
  { rewrite Ha', update_preview_all_notes, refresh_all_notes.
    rewrite save_notes_notes, save_notes_all_notes.
    apply reconcile_idempotent. }
  assert (forall w, In w ws' -> StickyNote.winfo_exists w = true ->
                    StickyNote.note_id w = k -> StickyNote.bg w = c)
    as Hbg.
  { intros w Hw Hex Hk. apply in_map_iff in Hw.
    destruct Hw as [w0 [Hw0 _]].
    destruct (live_with_id k w0) eqn:El; [now subst w|].
    subst w0. unfold live_with_id in El.
    now rewrite Hex, Hk, String.eqb_refl in El. }
  split; [|split; [|split; [|split; [|split; [|split; [|split]]]]]].
  - rewrite Hall.
    assert (find_note k all' = Some (NoteData.set_color c n0)) as Hf'
      by (now apply find_note_update_first_same).
    destruct (reconcile_first_note k ws' all' _ Hf')
      as [[_ (w & H1 & H2 & H3 & H4)]|[_ H]].
    + exists (StickyNote.get_note_data w). split; [assumption|].
      cbn. f_equal. now apply Hbg.
    + eexists. split; [exact H|reflexivity].
  - now rewrite Hnotes.
  - rewrite Hnotes. intros w Hw Hk. apply in_map_iff in Hw.
    destruct Hw as [w0 [Hw0 Hin]].
    destruct (live_with_id k w0) eqn:El; [|now subst w0].
    exfalso. apply Hk. subst w. unfold live_with_id in El.
    apply andb_prop in El. destruct El as [_ El].
    now apply String.eqb_eq in El.
  - rewrite Hall, reconcile_ids. now apply update_first_ids.
  - rewrite Ha'. unfold update_preview. reflexivity.
  - rewrite Ha'. unfold update_preview. reflexivity.
  - unfold change_selected_note_color. now rewrite Hs, Hf.
  - unfold change_selected_note_color. now rewrite Hs, Hf.
Qed.

(** X16 on a closed note. *)
Lemma X16_colour_from_the_list_witness :
  exists n,
    find_note "20240101120000"
      (all_notes (change_selected_note_color (Some "#CCFFCC")
                    closed_selected)) = Some n /\
    NoteData.color n = Some "#CCFFCC".
Proof.
  apply (X16_colour_from_the_list closed_selected "20240101120000"
           (NoteData.mk "20240101120000" (Some "alpha") (Some 60%Z)
              (Some 70%Z) (Some 200%Z) (Some 200%Z) (Some "#FFFF99")
              (Some false) (Some true)) "#CCFFCC").
  - vm_compute. reflexivity.
  - vm_compute. reflexivity.
  - discriminate.
Defined.

(** X17.  Opening the selected row.  If a window with the selected id is
    on screen, nothing changes: no second window is made.  Otherwise one
    window is added, built from the first note with that id; it is on
    screen and bears the id; the note in the store becomes exactly what
    [get_note_data] reads from the new window, so it is marked open; and
    the ids of the store are unchanged. *)
Theorem X17_open_selected_note : forall a k d e,
  selection a = Some k -> k <> "" ->
  find_note k (all_notes a) = Some d ->
  let a' := open_selected_note e a in
  (existsb (live_with_id k) (notes a) = true -> a' = a) /\
  (existsb (live_with_id k) (notes a) = false ->
   notes a' = (notes a ++ [window_for d e])%list /\
   StickyNote.note_id (window_for d e) = k /\
   StickyNote.winfo_exists (window_for d e) = true /\
   find_note k (all_notes a') =
     Some (StickyNote.get_note_data (window_for d e)) /\
   ids (all_notes a') = ids (all_notes a)).
Proof.
  intros a k d e Hs Hk Hf a'.
  pose proof (find_note_id k _ _ Hf) as Hid.
  assert (StickyNote.note_id (window_for d e) = k) as Hwk.
  { rewrite window_for_note_id, Hid. now rewrite (proj2 (truthy_true _) Hk). }
  split; intros Hl; unfold a', open_selected_note; rewrite Hs, Hl;
    [reflexivity|]. rewrite Hf.
  set (a1 := set_all_notes
               (update_first k (NoteData.set_is_open true) (all_notes a)) a).
  assert (ids (all_notes a1) = ids (all_notes a)) as Hids
    by (now apply update_first_ids).
  assert (In k (ids (all_notes a1))) as Hin.
  { rewrite Hids. now apply find_note_some_ids with d. }
  split; [|split; [|split; [|split]]].
  - now rewrite create_new_note_notes, window_for_set_is_open.
  - exact Hwk.
  - apply window_for_exists.
  - unfold create_new_note. rewrite refresh_all_notes.
    cbn [notes all_notes set_notes set_all_notes].
    rewrite window_for_set_is_open, Hwk.
    rewrite (proj2 (existsb_has_id k _) Hin).
    apply reconcile_flushes.
    + apply in_or_app. right. now left.
    + apply window_for_exists.
    + exact Hwk.
    + intros w' Hw' Hex' Hk'. apply in_app_or in Hw'.
      destruct Hw' as [Hw'|[<-|[]]]; [|reflexivity].
      exfalso.
      assert (existsb (live_with_id k) (notes a) = true) as Hc.
      { apply existsb_exists. exists w'. split; [assumption|].
        unfold live_with_id. now rewrite Hex', Hk', String.eqb_refl. }
      change (notes a1) with (notes a) in Hw'. congruence.
    + rewrite replace_first_ids; [assumption|].
      now rewrite get_note_data_id.
  - rewrite create_some_ids; [assumption| |].
    + change (NoteData.id (NoteData.set_is_open true d)) with (NoteData.id d).
      now rewrite Hid.
    + change (NoteData.id (NoteData.set_is_open true d)) with (NoteData.id d).
      now rewrite Hid.
Qed.

(** X17 on a closed note. *)
Lemma X17_open_selected_note_witness :
  notes (open_selected_note noon_again closed_selected) =
  (notes closed_selected ++
   [window_for
      (NoteData.mk "20240101120000" (Some "alpha") (Some 60%Z)
         (Some 70%Z) (Some 200%Z) (Some 200%Z) (Some "#FFFF99")
         (Some false) (Some true)) noon_again])%list.
Proof.
  apply (X17_open_selected_note closed_selected "20240101120000"
           (NoteData.mk "20240101120000" (Some "alpha") (Some 60%Z)
              (Some 70%Z) (Some 200%Z) (Some 200%Z) (Some "#FFFF99")
              (Some false) (Some true)) noon_again).
  - vm_compute. reflexivity.
  - discriminate.
  - vm_compute. reflexivity.
  - vm_compute. reflexivity.
Defined.

(** X18.  Leaving and starting again brings the windows back.  If a window
    with a non-empty id is on screen when the program is left and a note of
    the store has that id, then after the next start a window with that id
    is on screen again, and [get_note_data] reads from it what it read from
    a window with that id before: same text, place, size and colour. *)
Theorem X18_windows_come_back : forall a envs k,
  k <> "" -> live_window_with_id k a -> In k (ids (all_notes a)) ->
  exists w w',
    In w (notes a) /\ StickyNote.winfo_exists w = true /\
    StickyNote.note_id w = k /\
    In w' (notes (step a (ExitAndLaunch envs))) /\
    StickyNote.winfo_exists w' = true /\ StickyNote.note_id w' = k /\
    StickyNote.get_note_data w' = StickyNote.get_note_data w.
Proof.
  intros a envs k Hk Hlive Hin. cbn [step].
  rewrite on_exit_notes_file.
  assert (all_notes (on_exit a) =
          reconcile (notes a)
            (fold_left mark_was_open (notes a) (all_notes a))) as Hl
    by reflexivity.
  assert (In k (ids (fold_left mark_was_open (notes a) (all_notes a))))
    as Hin' by (now rewrite ids_fold_mark).
  destruct (find_note_present k _ Hin') as [n0 [Hn0 _]].
  apply open_note_ids_spec in Hlive.
  destruct (reconcile_first_note k (notes a) _ n0 Hn0)
    as [[_ (w & H1 & H2 & H3 & H4)]|[Hno _]]; [|tauto].
  rewrite <- Hl in H4. apply find_note_in in H4.
  destruct (in_windows_for envs
              (filter NoteData.get_was_open
                 (map (NoteData.set_is_open false) (all_notes (on_exit a))))
              (NoteData.set_is_open false (StickyNote.get_note_data w)) 0)
    as [e He].
  { apply filter_In. split; [now apply in_map|reflexivity]. }
  rewrite window_for_set_is_open, <- launch_notes in He.
  exists w, (window_for (StickyNote.get_note_data w) e).
  repeat split; try assumption; try apply window_for_exists.
  - rewrite window_for_note_id. cbn [NoteData.id StickyNote.get_note_data].
    rewrite H3. now rewrite (proj2 (truthy_true _) Hk).
  - apply window_round_trip. now rewrite H3.
Qed.

(** X18 on two windows, one of them closed before leaving. *)
Lemma X18_windows_come_back_witness :
  exists w w',
    In w (notes two_stale_notes) /\ StickyNote.winfo_exists w = true /\
    StickyNote.note_id w = "20240101120000" /\
    In w' (notes (step two_stale_notes (ExitAndLaunch (always noon)))) /\
    StickyNote.winfo_exists w' = true /\
    StickyNote.note_id w' = "20240101120000" /\
    StickyNote.get_note_data w' = StickyNote.get_note_data w.
Proof.
  apply (X18_windows_come_back two_stale_notes (always noon)
           "20240101120000").
  - discriminate.
  - eexists. split; [|split].
    + vm_compute. left. reflexivity.
    + reflexivity.
    + reflexivity.
  - vm_compute. left. reflexivity.
Defined.

(* ------------------------------------------------------------------ *)
(** ** Resizing and leaving *)

Lemma resize_gesture_frame x0 y0 ps w :
  let s := resize_gesture x0 y0 ps w in
  StickyNote.resize_start_x s = x0 /\ StickyNote.resize_start_y s = y0 /\
  StickyNote.resize_start_width s = StickyNote.winfo_width w /\
  StickyNote.resize_start_height s = StickyNote.winfo_height w /\
  StickyNote.note_id s = StickyNote.note_id w /\
  StickyNote.text_area s = StickyNote.text_area w /\
  StickyNote.winfo_x s = StickyNote.winfo_x w /\
  StickyNote.winfo_y s = StickyNote.winfo_y w /\
  StickyNote.bg s = StickyNote.bg w /\
  StickyNote.winfo_exists s = StickyNote.winfo_exists w.
Proof.
  unfold resize_gesture.
  induction ps as [|p ps IH] using rev_ind; [cbn; tauto|].
  rewrite fold_left_app. cbn [fold_left].
  cbn [StickyNote.on_resize StickyNote.geometry_size
       StickyNote.resize_start_x StickyNote.resize_start_y
       StickyNote.resize_start_width StickyNote.resize_start_height
       StickyNote.note_id StickyNote.text_area StickyNote.winfo_x
       StickyNote.winfo_y StickyNote.bg StickyNote.winfo_exists].
  exact IH.
Qed.

(** X19.  During a resize the size of the window depends only on where the
    pointer is now and where it was when the button went down, not on the
    way it took: the width is the width at the start plus the horizontal
    move, the height likewise, and neither goes below 100.  Nothing else of
    the window changes: id, text, place and colour stay. *)
Theorem X19_resize_follows_the_pointer : forall w x0 y0 ps x y,
  let w' := resize_gesture x0 y0 (ps ++ [(x, y)]) w in
  StickyNote.winfo_width w' =
    Z.max 100 (StickyNote.winfo_width w + (x - x0)) /\
  StickyNote.winfo_height w' =
    Z.max 100 (StickyNote.winfo_height w + (y - y0)) /\
  (100 <= StickyNote.winfo_width w')%Z /\
  (100 <= StickyNote.winfo_height w')%Z /\
  StickyNote.note_id w' = StickyNote.note_id w /\
  StickyNote.text_area w' = StickyNote.text_area w /\
  StickyNote.winfo_x w' = StickyNote.winfo_x w /\
  StickyNote.winfo_y w' = StickyNote.winfo_y w /\
  StickyNote.bg w' = StickyNote.bg w.
Proof.
  intros w x0 y0 ps x y w'.
  destruct (resize_gesture_frame x0 y0 ps w)
    as (H1 & H2 & H3 & H4 & H5 & H6 & H7 & H8 & H9 & _).
  unfold w', resize_gesture. rewrite fold_left_app. cbn [fold_left fst snd].
  fold (resize_gesture x0 y0 ps w).
  cbn [StickyNote.on_resize StickyNote.geometry_size
       StickyNote.winfo_width StickyNote.winfo_height
       StickyNote.note_id StickyNote.text_area StickyNote.winfo_x
       StickyNote.winfo_y StickyNote.bg].
  rewrite H1, H2, H3, H4. repeat split; try assumption; lia.
Qed.

Lemma update_first_overwritten k f d all :
  (forall m, NoteData.id (f m) = NoteData.id m) ->
  replace_first k d (update_first k f all) = replace_first k d all.
Proof.
  intros Hf. unfold replace_first.
  induction all as [|n rest IH]; simpl; [reflexivity|].
  destruct (has_id k n) eqn:E; simpl.
  - assert (has_id k (f n) = true) as ->
      by (apply has_id_true; rewrite Hf; now apply has_id_true).
    reflexivity.
  - now rewrite E, IH.
Qed.

Lemma update_first_comm_replace k k' f d' all :
  k <> k' -> (forall m, NoteData.id (f m) = NoteData.id m) ->
  NoteData.id d' = k' ->
  replace_first k' d' (update_first k f all) =
  update_first k f (replace_first k' d' all).
Proof.
  intros Hne Hf Hd'. unfold replace_first.
  assert (has_id k d' = false) as Hkd'
    by (apply has_id_false; congruence).
  induction all as [|n rest IH]; simpl; [reflexivity|].
  destruct (has_id k n) eqn:E; destruct (has_id k' n) eqn:E'; simpl;
    rewrite ?E, ?E', ?Hkd'.
  - apply has_id_true in E, E'. congruence.
  - assert (has_id k' (f n) = false) as ->.
    { apply has_id_false. rewrite Hf. now apply has_id_false. }
    reflexivity.
  - reflexivity.
  - now rewrite IH.
Qed.

Lemma fold_pull_absorb_update k f ws : forall all,
  In k (open_note_ids ws) ->
  (forall m, NoteData.id (f m) = NoteData.id m) ->
  fold_left pull_window ws (update_first k f all) =
  fold_left pull_window ws all.
Proof.
  induction ws as [|w ws IH]; cbn [fold_left]; intros all Hin Hf;
    [destruct Hin|].
  unfold open_note_ids in Hin. simpl in Hin.
  destruct (StickyNote.winfo_exists w) eqn:Ex.
  - rewrite !pull_window_live by assumption.
    destruct (String.eqb_spec k (StickyNote.note_id w)) as [E|E].
    + rewrite <- E. now rewrite update_first_overwritten.
    + rewrite update_first_comm_replace by (auto using get_note_data_id).
      apply IH; [|assumption].
      simpl in Hin. destruct Hin as [Hin|Hin]; [congruence|assumption].
  - rewrite !pull_window_dead by assumption. now apply IH.
Qed.

Lemma reconcile_after_marks ws ws' : forall all,
  incl (open_note_ids ws') (open_note_ids ws) ->
  reconcile ws (fold_left mark_was_open ws' all) = reconcile ws all.
Proof.
  induction ws' as [|w ws' IH]; cbn [fold_left]; intros all Hi;
    [reflexivity|].
  unfold open_note_ids in Hi. simpl in Hi.
  unfold mark_was_open at 2.
  destruct (StickyNote.winfo_exists w) eqn:Ex.
  - rewrite IH by (intros z Hz; apply Hi; now right).
    unfold reconcile. rewrite fold_pull_absorb_update; auto.
    apply Hi. now left.
  - now apply IH.
Qed.

(** X20.  Leaving the program saves and closes everything: the file then
    holds exactly the store, which is the store as [refresh_note_list]
    alone would have left it (the loop that writes [was_open = True] for
    the windows on screen changes nothing, [get_note_data] writes it
    anyway), and no window is left on screen. *)
Theorem X20_exit_saves_and_closes : forall a,
  all_notes (on_exit a) = all_notes (refresh_note_list a) /\
  notes_file (on_exit a) = Notes (all_notes (on_exit a)) /\
  (forall w, In w (notes (on_exit a)) ->
             StickyNote.winfo_exists w = false) /\
  length (notes (on_exit a)) = length (notes a).
Proof.
  intros a. split; [|split; [reflexivity|split]].
  - rewrite refresh_all_notes.
    change (all_notes (on_exit a))
      with (reconcile (notes a)
              (fold_left mark_was_open (notes a) (all_notes a))).
    apply reconcile_after_marks, incl_refl.
  - intros w Hw.
    change (notes (on_exit a)) with (map StickyNote.destroy (notes a)) in Hw.
    apply in_map_iff in Hw. destruct Hw as [w0 [<- _]]. reflexivity.
  - change (notes (on_exit a)) with (map StickyNote.destroy (notes a)).
    apply length_map.
Qed.

(* ------------------------------------------------------------------ *)
(** ** The colour menu of a window, and what a save does to the list *)

Lemma nth_error_update_nth {A} (f : A -> A) (l : list A) : forall i,
  nth_error (update_nth i f l) i = option_map f (nth_error l i).
Proof.
  induction l as [|z l IH]; intros [|i]; simpl; try reflexivity. apply IH.
Qed.

Lemma change_color_all_notes i c a w :
  live_window i a = Some w -> Py.truthy c = true ->
  all_notes (change_color i (Some c) a) =
  reconcile (update_nth i (StickyNote.config_bg c) (notes a)) (all_notes a).
Proof.
  intros Hl Hc. unfold change_color. rewrite Hl, Hc.
  set (a1 := set_notes (update_nth i (StickyNote.config_bg c) (notes a)) a).
  set (k := StickyNote.note_id w).
  rewrite (update_note_in_list_reconciled k (save_note k a1) (all_notes a1)).
  - now rewrite save_note_all_notes.
  - now rewrite save_note_all_notes, save_note_notes.
Qed.

Lemma change_color_notes i c a w :
  live_window i a = Some w -> Py.truthy c = true ->
  notes (change_color i (Some c) a) =
  update_nth i (StickyNote.config_bg c) (notes a).
Proof.
  intros Hl Hc. unfold change_color. rewrite Hl, Hc.
  now rewrite update_note_in_list_notes, save_note_notes.
Qed.

(** X22.  A colour chosen in the menu of a window reaches the window and
    its note: when the window is on screen, its note is in the store and
    no other window on screen has its id, afterwards the window has the
    chosen colour as background, all other windows are as they were, and
    the first note with its id is exactly what [get_note_data] reads from
    the recoloured window.  A cancelled dialog changes nothing. *)
Theorem X22_colour_from_the_window : forall i a w c,
  live_window i a = Some w -> c <> "" ->
  In (StickyNote.note_id w) (ids (all_notes a)) ->
  (forall j w', j <> i -> nth_error (notes a) j = Some w' ->
                StickyNote.winfo_exists w' = true ->
                StickyNote.note_id w' <> StickyNote.note_id w) ->
  let a' := change_color i (Some c) a in
  nth_error (notes a') i = Some (StickyNote.config_bg c w) /\
  (forall j, j <> i -> nth_error (notes a') j = nth_error (notes a) j) /\
  find_note (StickyNote.note_id w) (all_notes a') =
    Some (StickyNote.get_note_data (StickyNote.config_bg c w)) /\
  change_color i None a = a /\
  change_color i (Some "") a = a.
Proof.
  intros i a w c Hl Hc Hin Hother a'.
  pose proof (proj2 (truthy_true c) Hc) as Ht.
  pose proof (live_window_some i a w Hl) as [Hn Hex].
  assert (nth_error (notes a') i = Some (StickyNote.config_bg c w)) as Hi.
  { unfold a'. rewrite (change_color_notes i c a w Hl Ht).
    now rewrite nth_error_update_nth, Hn. }
  split; [exact Hi|]. split; [|split; [|split]].
  - intros j Hj. unfold a'. rewrite (change_color_notes i c a w Hl Ht).
    clear - Hj. revert i j Hj.
    induction (notes a) as [|z l IH]; intros [|i] [|j] Hj; simpl;
      try reflexivity; try congruence.
    apply IH. congruence.
  - unfold a'. rewrite (change_color_all_notes i c a w Hl Ht).
    apply (reconcile_flushes (StickyNote.note_id w)
             (StickyNote.config_bg c w)); auto.
    + apply nth_error_In with i.
      now rewrite nth_error_update_nth, Hn.
    + intros w' Hw' Hex' Hk'. apply in_update_nth in Hw'.
      destruct Hw' as [[j [Hj Hnth]]|[w0 [Hw0 ->]]].
      * exfalso. exact (Hother j w' Hj Hnth Hex' Hk').
      * congruence.
  - unfold change_color. now destruct (live_window i a).
  - unfold change_color. now rewrite Hl.
Qed.

(** X22 on the only window that is left of two. *)
Lemma X22_colour_from_the_window_witness :
  find_note "20240101120000"
    (all_notes (change_color 0 (Some "#CCFFCC") two_stale_notes)) =
  Some (StickyNote.get_note_data
          (StickyNote.config_bg "#CCFFCC"
             (StickyNote.mk "20240101120000" "gamma" 60 70 200 200
                "#FFFF99" 0 0 0 0 0 0 true))).
Proof.
  apply (X22_colour_from_the_window 0 two_stale_notes
           (StickyNote.mk "20240101120000" "gamma" 60 70 200 200 "#FFFF99"
              0 0 0 0 0 0 true) "#CCFFCC").
  - vm_compute. reflexivity.
  - discriminate.
  - vm_compute. left. reflexivity.
  - intros j w' Hj Hnth Hex.
    destruct j as [|[|j]]; [congruence| |].
    + vm_compute in Hnth. inversion Hnth; subst w'. discriminate.
    + vm_compute in Hnth. destruct j; discriminate.
Defined.

Lemma live_window_find i a w :
  live_window i a = Some w ->
  exists w', find (live_with_id (StickyNote.note_id w)) (notes a) = Some w'.
Proof.
  intros Hl. apply live_window_some in Hl. destruct Hl as [Hn Hex].
  destruct (find (live_with_id (StickyNote.note_id w)) (notes a)) as [w'|]
    eqn:E; [now exists w'|].
  pose proof (find_none _ _ E w (nth_error_In _ _ Hn)) as Hf.
  unfold live_with_id in Hf. rewrite Hex, String.eqb_refl in Hf.
  discriminate.
Qed.

(** X23.  Saving from a window empties the list's selection: after a focus
    loss or a close of a window on screen, no row of the tree is selected
    and the preview is cleared (empty text on white), whatever was selected
    and shown before. *)
Theorem X23_save_drops_the_selection : forall i a w,
  live_window i a = Some w ->
  selection (save_on_focus_out i a) = None /\
  preview_text (save_on_focus_out i a) = mkPreview "" (Some "white") /\
  selection (on_close i a) = None /\
  preview_text (on_close i a) = mkPreview "" (Some "white").
Proof.
  intros i a w Hl.
  assert (selection (save_note (StickyNote.note_id w) a) = None /\
          preview_text (save_note (StickyNote.note_id w) a) =
            mkPreview "" (Some "white")) as [H1 H2].
  { unfold save_note, update_note_in_list.
    destruct (live_window_find i a w Hl) as [w' Hw'].
    change (notes (save_notes a)) with (notes a). rewrite Hw'.
    split; reflexivity. }
  unfold save_on_focus_out, on_close. rewrite Hl.
  repeat split; assumption.
Qed.

(** X23 on a window closed while a row is selected. *)
Lemma X23_save_drops_the_selection_witness :
  selection second_selected = Some "20240101120005" /\
  selection (on_close 0 second_selected) = None /\
  preview_text (on_close 0 second_selected) = mkPreview "" (Some "white").
Proof.
  split; [vm_compute; reflexivity|].
  apply (X23_save_drops_the_selection 0 second_selected
           (StickyNote.mk "20240101120000" "gamma" 60 70 200 200
              "#FFFF99" 0 0 0 0 0 0 true)).
  vm_compute. reflexivity.
Defined.
